(** * uvw/util.hpp: value utilities of the uvw wrapper

    A shallow embedding of [src/uvw/util.hpp]: the [Flags<E>] bit-mask
    wrapper, [FileDescriptor] and the standard stream constants, the [Addr]
    and [WinSize] values, the [IpTraits] table and the two [details::address]
    overloads that turn a socket address into an [Addr]. *)

From Stdlib Require Import ZArith Bool List String Ascii Lia.
Import ListNotations.

Local Open Scope Z_scope.

(** ** Fixed-width integers

    A C++ integer type is its number of bits and its signedness, and a value
    of the type is a [Z] in its range; [convert] is the conversion of a
    mathematical value to the type (modulo [2 ^ bits]). *)

Record IntType := { bits : positive; is_signed : bool }.

Definition bit_width (t : IntType) : Z := Z.pos (bits t).

Definition int_min (t : IntType) : Z :=
  if is_signed t then - 2 ^ (bit_width t - 1) else 0.

Definition int_max (t : IntType) : Z :=
  if is_signed t then 2 ^ (bit_width t - 1) - 1 else 2 ^ bit_width t - 1.

Definition in_range (t : IntType) (z : Z) : Prop :=
  int_min t <= z <= int_max t.

Definition convert (t : IntType) (z : Z) : Z :=
  if is_signed t
  then (z + 2 ^ (bit_width t - 1)) mod 2 ^ bit_width t - 2 ^ (bit_width t - 1)
  else z mod 2 ^ bit_width t.

Definition int : IntType := {| bits := 32; is_signed := true |}.
Definition unsigned_int : IntType := {| bits := 32; is_signed := false |}.
Definition uint16_t : IntType := {| bits := 16; is_signed := false |}.

(** ** [template<typename E> class Flags] *)

Module Flags.

(** The only data member is [InnerType flags]; the enumeration is a phantom
    parameter of the type. *)
Record Flags (E : Type) := mkFlags { flags : Z }.
Arguments mkFlags {E}.
Arguments flags {E}.

Section FlagsE.

(** [E] is the enumeration, [InnerType] its [std::underlying_type_t] and
    [underlying] the value of each enumerator. *)
Variable E : Type.
Variable InnerType : IntType.
Variable underlying : E -> Z.

(** [static_cast<InnerType>(flag)] *)
Definition toInnerType (flag : E) : Z := convert InnerType (underlying flag).

(** [Flags(E flag)], [Flags(Type f)], [Flags()] *)
Definition of_enum (flag : E) : Flags E := mkFlags (toInnerType flag).
Definition of_raw (f : Z) : Flags E := mkFlags f.
Definition empty : Flags E := mkFlags 0.

(** [operator|(const Flags &)], [operator|(E)]: the operands are promoted,
    or-ed and the result is converted back to [Type]. *)
Definition or (a f : Flags E) : Flags E :=
  of_raw (convert InnerType (Z.lor (flags a) (flags f))).
Definition or_enum (a : Flags E) (flag : E) : Flags E :=
  of_raw (convert InnerType (Z.lor (flags a) (toInnerType flag))).

(** [operator&(const Flags &)], [operator&(E)] *)
Definition and (a f : Flags E) : Flags E :=
  of_raw (convert InnerType (Z.land (flags a) (flags f))).
Definition and_enum (a : Flags E) (flag : E) : Flags E :=
  of_raw (convert InnerType (Z.land (flags a) (toInnerType flag))).

(** [operator bool()]: [!(flags == InnerType{})] *)
Definition to_bool (a : Flags E) : bool := negb (flags a =? 0).

(** [operator Type()] *)
Definition to_raw (a : Flags E) : Z := flags a.

(** A [Flags] object holds a value of [InnerType]. *)
Definition wf (a : Flags E) : Prop := in_range InnerType (flags a).

End FlagsE.

Arguments toInnerType {E}.
Arguments of_enum {E}.
Arguments of_raw {E}.
Arguments empty {E}.
Arguments or {E}.
Arguments or_enum {E}.
Arguments and {E}.
Arguments and_enum {E}.
Arguments to_bool {E}.
Arguments to_raw {E}.
Arguments wf {E}.

End Flags.

(** ** [struct FileDescriptor] and the standard streams

    [uv_file] is [int]. *)

Record FileDescriptor := mkFileDescriptor { fd : Z }.

(** [operator Type()] *)
Definition fd_to_raw (d : FileDescriptor) : Z := fd d.

Definition STDIN : FileDescriptor := mkFileDescriptor 0.
Definition STDOUT : FileDescriptor := mkFileDescriptor 1.
Definition STDERR : FileDescriptor := mkFileDescriptor 2.

(** ** [struct Addr], [struct WinSize] *)

Record Addr := mkAddr { ip : string; port : Z }.
Record WinSize := mkWinSize { width : Z; height : Z }.

(** [Addr addr{}] *)
Definition default_Addr : Addr := mkAddr EmptyString 0.

(** ** [namespace details] *)

Module details.

(** [struct IPv4 { }; struct IPv6 { };] *)
Inductive family := IPv4 | IPv6.

(** *** Byte order

    [ntohs] and [htons] take and return a [uint16_t]: the identity on a
    big-endian host, the exchange of the two octets on a little-endian one. *)

Definition bswap16 (x : Z) : Z :=
  Z.lor (Z.shiftl (Z.land x 255) 8) (Z.land (Z.shiftr x 8) 255).

Definition ntohs (big_endian : bool) (netshort : Z) : Z :=
  let x := convert uint16_t netshort in
  if big_endian then x else bswap16 x.

Definition htons (big_endian : bool) (hostshort : Z) : Z :=
  let x := convert uint16_t hostshort in
  if big_endian then x else bswap16 x.

(** What a host reads from a [uint16_t] object stored as the octets [b0]
    (lower address) and [b1]. *)
Definition load16 (big_endian : bool) (b0 b1 : Z) : Z :=
  if big_endian then Z.lor (Z.shiftl b0 8) b1 else Z.lor (Z.shiftl b1 8) b0.

(** *** The local array [char name[len]]

    [std::string{name}] on an array of [n] characters of which the callee
    stored [name]: the characters before the first [NUL].  Without a [NUL]
    among the stored characters of the array the constructor reads what was
    never written, or past the array: that is undefined, [None]. *)
Fixpoint string_of_array (n : nat) (name : list ascii) : option string :=
  match n, name with
  | S n', c :: rest =>
      if Ascii.eqb c "000"%char then Some EmptyString
      else option_map (String c) (string_of_array n' rest)
  | _, _ => None
  end.

(** *** [IpTraits]

    One entry of the table: the storage type of the family and its two
    primitives.  A pointer argument that the callee fills is modelled as a
    result: [AddrFunc ip port] returns the status and the filled storage,
    [NameFunc src size] the status and the characters stored in [dst]. *)
Record Traits := mkTraits {
  Type_ : Type;
  AddrFunc : string -> Z -> Z * Type_;
  NameFunc : Type_ -> Z -> Z * list ascii
}.

(** The Boost/Mutant cast [reinterpret_cast<Addr&>(addr)] of a
    [std::pair<std::string, unsigned int>]: [first] is read as [ip] and
    [second] as [port]. *)
Definition mutant (addr : string * Z) : Addr :=
  mkAddr (fst addr) (snd addr).

Section Address.

(** The platform: byte order of the host, [std::size_t], the socket address
    structures of <netinet/in.h> and the four libuv primitives the table
    points to.  [sin_port] is the member of that name of [sockaddr_in]. *)
Variable big_endian : bool.
Variable size_t : IntType.
Variable sockaddr_in sockaddr_in6 sockaddr_storage : Type.
Variable sin_port : sockaddr_in -> Z.
Variable uv_ip4_addr : string -> Z -> Z * sockaddr_in.
Variable uv_ip6_addr : string -> Z -> Z * sockaddr_in6.
Variable uv_ip4_name : sockaddr_in -> Z -> Z * list ascii.
Variable uv_ip6_name : sockaddr_in6 -> Z -> Z * list ascii.

(** [sizeof(sockaddr_storage)] and the two views
    [reinterpret_cast<typename Traits::Type *>(&ssto)]. *)
Variable sizeof_sockaddr_storage : Z.
Variable as_sockaddr_in : sockaddr_storage -> sockaddr_in.
Variable as_sockaddr_in6 : sockaddr_storage -> sockaddr_in6.

(** [template<> struct IpTraits<IPv4>], [template<> struct IpTraits<IPv6>]
    and the four definitions of [AddrFunc] and [NameFunc]. *)
Definition IpTraits (I : family) : Traits :=
  match I with
  | IPv4 => mkTraits sockaddr_in uv_ip4_addr uv_ip4_name
  | IPv6 => mkTraits sockaddr_in6 uv_ip6_addr uv_ip6_name
  end.

(** The member access [aptr->sin_port] of the template, at the storage type
    of each tag.  <netinet/in.h> declares [sin_family], [sin_port] and
    [sin_addr] in [sockaddr_in], and [sin6_family], [sin6_port],
    [sin6_flowinfo], [sin6_addr] and [sin6_scope_id] in [sockaddr_in6]:
    the name [sin_port] is found in the first and in the first only. *)
Definition member_sin_port (I : family) : option (Type_ (IpTraits I) -> Z) :=
  match I with
  | IPv4 => Some sin_port
  | IPv6 => None
  end.

Definition reinterpret (I : family) : sockaddr_storage -> Type_ (IpTraits I) :=
  match I with
  | IPv4 => as_sockaddr_in
  | IPv6 => as_sockaddr_in6
  end.

(** The body of [address(aptr, len)] at a storage type in which the member
    [sin_port] is found.  The array [char name[len]] has no meaning for a
    negative [len], and the string is read out of its [len] characters:
    [None] is undefined behaviour. *)
Definition address_body (I : family) (aptr_sin_port : Type_ (IpTraits I) -> Z)
    (aptr : Type_ (IpTraits I)) (len : Z) : option Addr :=
  let addr : string * Z := (EmptyString, 0) in
  if len <? 0 then None
  else
    let '(err, name) := NameFunc (IpTraits I) aptr (convert size_t len) in
    if 0 =? err
    then
      match string_of_array (Z.to_nat len) name with
      | Some text =>
          Some (mutant (text,
                        convert unsigned_int
                          (ntohs big_endian (aptr_sin_port aptr))))
      | None => None
      end
    else Some (mutant addr).

(** [Addr address(const typename Traits::Type *aptr, int len)], instantiated
    at the tag [I]: [None] where the instantiation is ill-formed. *)
Definition address (I : family)
    : option (Type_ (IpTraits I) -> Z -> option Addr) :=
  match member_sin_port I with
  | Some aptr_sin_port => Some (address_body I aptr_sin_port)
  | None => None
  end.

(** The body of [address(f, handle)], given the instance [address<I>] it
    calls: the accessor [f] receives the handle and the capacity [len], and
    returns its status, the storage it filled and the length it stored in
    [len]. *)
Definition address_handle_body (I : family)
    (address_I : Type_ (IpTraits I) -> Z -> option Addr) {U : Type}
    (f : U -> Z -> Z * sockaddr_storage * Z) (handle : U) : option Addr :=
  let len := convert int sizeof_sockaddr_storage in
  let addr := default_Addr in
  let '(err, ssto, len) := f handle len in
  if 0 =? err
  then
    let aptr := reinterpret I ssto in
    address_I aptr len
  else Some addr.

(** [Addr address(F &&f, const U *handle)], instantiated at the tag [I]:
    ill-formed where [address<I>(aptr, len)] is. *)
Definition address_handle (I : family) (U : Type)
    : option ((U -> Z -> Z * sockaddr_storage * Z) -> U -> option Addr) :=
  match address I with
  | Some address_I => Some (address_handle_body I address_I)
  | None => None
  end.

End Address.

End details.

(** ** A reference platform

    The headers <netinet/in.h> and <uv.h> are not part of the repository.
    This module gives one platform on which the development can be run: the
    socket address structures as on Linux, and the four primitives after
    libuv's [src/inet.c] and [src/uv-common.c].  It instantiates the
    parameters of [details.address]; the general theorems do not depend on
    it. *)

Module Platform.

Definition AF_INET : Z := 2.
Definition AF_INET6 : Z := 10.
Definition UV_EINVAL : Z := -22.
Definition UV_ENOSPC : Z := -28.

(** [std::size_t] on an LP64 system. *)
Definition size_t : IntType := {| bits := 64; is_signed := false |}.

(** [struct sockaddr_in]: the port as the host reads it, the address as its
    four octets in memory order. *)
Record sockaddr_in := mkSockaddrIn {
  sin_family : Z;
  sin_port : Z;
  sin_addr : list Z
}.

(** [struct sockaddr_in6] *)
Record sockaddr_in6 := mkSockaddrIn6 {
  sin6_family : Z;
  sin6_port : Z;
  sin6_flowinfo : Z;
  sin6_addr : list Z;
  sin6_scope_id : Z
}.

(** [struct sockaddr_storage]: 128 octets. *)
Definition sockaddr_storage : Type := list Z.
Definition sizeof_sockaddr_storage : Z := 128.

Definition octet (ssto : sockaddr_storage) (i : nat) : Z := nth i ssto 0.

Definition octets (ssto : sockaddr_storage) (from n : nat) : list Z :=
  map (octet ssto) (seq from n).

Definition load32 (big_endian : bool) (b : list Z) : Z :=
  let w := if big_endian then b else rev b in
  fold_left (fun acc x => Z.lor (Z.shiftl acc 8) x) w 0.

Section Host.

Variable big_endian : bool.

(** The family recorded in a generic buffer ([ss_family]). *)
Definition ss_family (ssto : sockaddr_storage) : Z :=
  details.load16 big_endian (octet ssto 0) (octet ssto 1).

(** [reinterpret_cast<sockaddr_in *>(&ssto)] *)
Definition as_sockaddr_in (ssto : sockaddr_storage) : sockaddr_in :=
  mkSockaddrIn (ss_family ssto)
               (details.load16 big_endian (octet ssto 2) (octet ssto 3))
               (octets ssto 4 4).

(** [reinterpret_cast<sockaddr_in6 *>(&ssto)] *)
Definition as_sockaddr_in6 (ssto : sockaddr_storage) : sockaddr_in6 :=
  mkSockaddrIn6 (ss_family ssto)
                (details.load16 big_endian (octet ssto 2) (octet ssto 3))
                (load32 big_endian (octets ssto 4 4))
                (octets ssto 8 16)
                (load32 big_endian (octets ssto 24 4)).

End Host.

(** *** Decimal and hexadecimal digits *)

Definition digit_of (base : Z) (ch : ascii) : option Z :=
  let n := Z.of_nat (nat_of_ascii ch) in
  let v :=
    if (48 <=? n) && (n <=? 57) then n - 48
    else if (97 <=? n) && (n <=? 102) then n - 87
    else if (65 <=? n) && (n <=? 70) then n - 55
    else 16 in
  if v <? base then Some v else None.

Definition digit_char (d : Z) : ascii :=
  ascii_of_nat (Z.to_nat (if d <? 10 then 48 + d else 87 + d)).

(** The digits of [n] in [base], most significant first ([%u], [%x]). *)
Fixpoint digits_fuel (fuel : nat) (base n : Z) (acc : list ascii) : list ascii :=
  match fuel with
  | O => acc
  | S fuel' =>
      let acc' := digit_char (n mod base) :: acc in
      if n / base =? 0 then acc' else digits_fuel fuel' base (n / base) acc'
  end.

Definition print_number (base n : Z) : list ascii :=
  digits_fuel 16 base n [].

(** *** [inet_pton4]

    [done] holds the octets before [*tp], last first, and [cur] is [*tp]. *)
Fixpoint inet_pton4_loop (src : list ascii) (saw_digit : bool) (noctets : Z)
    (done : list Z) (cur : Z) : option (list Z) :=
  match src with
  | [] => if noctets <? 4 then None else Some (rev (cur :: done))
  | ch :: src' =>
      match digit_of 10 ch with
      | Some d =>
          let nw := cur * 10 + d in
          if saw_digit && (cur =? 0) then None
          else if nw >? 255 then None
          else if saw_digit then inet_pton4_loop src' true noctets done nw
          else if noctets + 1 >? 4 then None
          else inet_pton4_loop src' true (noctets + 1) done nw
      | None =>
          if Ascii.eqb ch "."%char && saw_digit
          then if noctets =? 4 then None
               else inet_pton4_loop src' false noctets (cur :: done) 0
          else None
      end
  end.

Definition inet_pton4 (src : list ascii) : option (list Z) :=
  inet_pton4_loop src false 0 [] 0.

(** *** [inet_ntop4]: [snprintf(tmp, sizeof(tmp), "%u.%u.%u.%u", ...)] *)
Definition format_ip4 (src : list Z) : list ascii :=
  let u i := print_number 10 (nth i src 0) in
  u 0%nat ++ "."%char :: u 1%nat ++ "."%char :: u 2%nat ++ "."%char :: u 3%nat.

Definition inet_ntop4 (src : list Z) (size : Z) : Z * list ascii :=
  let tmp := format_ip4 src in
  let l := Z.of_nat (List.length tmp) in
  if (l <=? 0) || (l >=? size) then (UV_ENOSPC, [])
  else (0, tmp ++ ["000"%char]).

(** *** [inet_pton6]

    The sixteen octets of [tmp] are handled as eight groups: [out] holds the
    groups written so far, last first, and [colonp] the number of groups
    written when the double colon was met.  The loop returns its final state,
    or [None] where the C code returns [UV_EINVAL]. *)
Fixpoint inet_pton6_loop (src curtok : list ascii) (seen_xdigits val : Z)
    (out : list Z) (colonp : option nat) : option (list Z * option nat * Z * Z) :=
  match src with
  | [] => Some (out, colonp, seen_xdigits, val)
  | ch :: src' =>
      match digit_of 16 ch with
      | Some d =>
          let val := Z.lor (Z.shiftl val 4) d in
          if seen_xdigits + 1 >? 4 then None
          else inet_pton6_loop src' curtok (seen_xdigits + 1) val out colonp
      | None =>
          if Ascii.eqb ch ":"%char then
            if seen_xdigits =? 0 then
              match colonp with
              | Some _ => None
              | None => inet_pton6_loop src' src' seen_xdigits val out
                                        (Some (List.length out))
              end
            else
              match src' with
              | [] => None
              | _ =>
                  if (8 <=? List.length out)%nat then None
                  else inet_pton6_loop src' src' 0 0 (val :: out) colonp
              end
          else if Ascii.eqb ch "."%char && (List.length out <=? 6)%nat then
            match inet_pton4 curtok with
            | Some [a; b; c; d] =>
                Some (Z.lor (Z.shiftl c 8) d :: Z.lor (Z.shiftl a 8) b :: out,
                      colonp, 0, val)
            | _ => None
            end
          else None
      end
  end.

Definition group_octets (w : Z) : list Z :=
  [Z.land (Z.shiftr w 8) 255; Z.land w 255].

Definition inet_pton6 (src : list ascii) : option (list Z) :=
  let start :=
    match src with
    | ":"%char :: (":"%char :: _) as src' => Some src'
    | ":"%char :: _ => None
    | _ => Some src
    end in
  match start with
  | None => None
  | Some src =>
      match inet_pton6_loop src src 0 0 [] None with
      | None => None
      | Some (out, colonp, seen_xdigits, val) =>
          let flushed :=
            if seen_xdigits =? 0 then Some out
            else if (8 <=? List.length out)%nat then None
            else Some (val :: out) in
          match flushed with
          | None => None
          | Some out =>
              let groups := rev out in
              let n := List.length groups in
              match colonp with
              | Some k =>
                  if (n =? 8)%nat then None
                  else Some (flat_map group_octets
                               (firstn k groups ++ repeat 0 (8 - n)
                                ++ skipn k groups))
              | None =>
                  if (n =? 8)%nat then Some (flat_map group_octets groups)
                  else None
              end
          end
      end
  end.

(** *** [inet_ntop6] *)

(** [words[i / 2] |= (src[i] << ((1 - (i % 2)) << 3))] *)
Definition words_of (src : list Z) : list Z :=
  map (fun i => Z.lor (Z.shiftl (nth (2 * i) src 0) 8) (nth (2 * i + 1) src 0))
      (seq 0 8).

(** A run of zero groups is [(base, len)], with [base = -1] for none. *)
Definition better (best cur : Z * Z) : Z * Z :=
  if (fst best =? -1) || (snd cur >? snd best) then cur else best.

Definition run_step (words : list Z) (st : (Z * Z) * (Z * Z)) (i : nat)
    : (Z * Z) * (Z * Z) :=
  let '(best, cur) := st in
  if nth i words 0 =? 0 then
    if fst cur =? -1 then (best, (Z.of_nat i, 1))
    else (best, (fst cur, snd cur + 1))
  else
    if fst cur =? -1 then (best, cur)
    else (better best cur, (-1, snd cur)).

Definition best_run (words : list Z) : Z * Z :=
  let '(best, cur) := fold_left (run_step words) (seq 0 8) ((-1, 0), (-1, 0)) in
  let best := if fst cur =? -1 then best else better best cur in
  if negb (fst best =? -1) && (snd best <? 2) then (-1, snd best) else best.

Definition UV__INET6_ADDRSTRLEN : Z := 46.

(** The formatting loop; [tp] holds the characters written so far. *)
Fixpoint inet_ntop6_format (src words : list Z) (best : Z * Z) (todo : list nat)
    (tp : list ascii) : Z * list ascii :=
  match todo with
  | [] => (0, tp)
  | i :: todo' =>
      let zi := Z.of_nat i in
      if negb (fst best =? -1) && (fst best <=? zi) && (zi <? fst best + snd best)
      then inet_ntop6_format src words best todo'
             (if zi =? fst best then tp ++ [":"%char] else tp)
      else
        let tp := if zi =? 0 then tp else tp ++ [":"%char] in
        if (zi =? 6) && (fst best =? 0)
           && ((snd best =? 6)
               || ((snd best =? 7) && negb (nth 7 words 0 =? 1))
               || ((snd best =? 5) && (nth 5 words 0 =? 65535)))
        then
          let '(err, text) :=
            inet_ntop4 (skipn 12 src)
                       (UV__INET6_ADDRSTRLEN - Z.of_nat (List.length tp)) in
          if err =? 0
          then (0, tp ++ removelast text)
          else (err, tp)
        else inet_ntop6_format src words best todo'
               (tp ++ print_number 16 (nth i words 0))
  end.

Definition inet_ntop6 (src : list Z) (size : Z) : Z * list ascii :=
  let words := words_of src in
  let best := best_run words in
  let '(err, tp) := inet_ntop6_format src words best (seq 0 8) [] in
  if err =? 0 then
    let tp :=
      if negb (fst best =? -1) && (fst best + snd best =? 8)
      then tp ++ [":"%char] else tp in
    let tmp := tp ++ ["000"%char] in
    if Z.of_nat (List.length tmp) >? size then (UV_ENOSPC, [])
    else (0, tmp)
  else (err, []).

(** *** Zone ids

    [strchr(ip, '%')]: the text before the first percent sign, and the text
    after it when there is one. *)
Fixpoint split_zone (src : list ascii) : list ascii * option (list ascii) :=
  match src with
  | [] => ([], None)
  | ch :: src' =>
      if Ascii.eqb ch "%"%char then ([], Some src')
      else let '(part, zone) := split_zone src' in (ch :: part, zone)
  end.

(** [if_nametoindex]: the platform has the loopback interface [lo], of
    index 1; an unknown name gives 0. *)
Definition if_nametoindex (name : string) : Z :=
  if String.eqb name "lo" then 1 else 0.

(** [uv_inet_pton(AF_INET6, src, dst)] *)
Definition uv_inet_pton6 (src : list ascii) : option (list Z) :=
  match split_zone src with
  | (part, Some _) =>
      if Z.of_nat (List.length part) >? UV__INET6_ADDRSTRLEN - 1 then None
      else inet_pton6 part
  | (_, None) => inet_pton6 src
  end.

(** *** The four primitives of [IpTraits] *)

Section Primitives.

Variable big_endian : bool.

Definition uv_ip4_addr (ip : string) (port : Z) : Z * sockaddr_in :=
  let addr := mkSockaddrIn AF_INET (details.htons big_endian port) [0; 0; 0; 0] in
  match inet_pton4 (list_ascii_of_string ip) with
  | Some a => (0, mkSockaddrIn (sin_family addr) (sin_port addr) a)
  | None => (UV_EINVAL, addr)
  end.

Definition uv_ip6_addr (ip : string) (port : Z) : Z * sockaddr_in6 :=
  let src := list_ascii_of_string ip in
  let '(src, scope_id) :=
    match split_zone src with
    | (part, Some zone_index) =>
        (firstn 39 part, if_nametoindex (string_of_list_ascii zone_index))
    | (_, None) => (src, 0)
    end in
  let addr :=
    mkSockaddrIn6 AF_INET6 (details.htons big_endian port) 0 (repeat 0 16)
                  scope_id in
  match uv_inet_pton6 src with
  | Some a =>
      (0, mkSockaddrIn6 (sin6_family addr) (sin6_port addr) 0 a scope_id)
  | None => (UV_EINVAL, addr)
  end.

Definition uv_ip4_name (src : sockaddr_in) (size : Z) : Z * list ascii :=
  inet_ntop4 (sin_addr src) size.

Definition uv_ip6_name (src : sockaddr_in6) (size : Z) : Z * list ascii :=
  inet_ntop6 (sin6_addr src) size.

(** The table and the two overloads of [address] on this platform. *)
Definition IpTraits : details.family -> details.Traits :=
  details.IpTraits sockaddr_in sockaddr_in6
    uv_ip4_addr uv_ip6_addr uv_ip4_name uv_ip6_name.

Definition address (I : details.family) :
    option (details.Type_ (IpTraits I) -> Z -> option Addr) :=
  details.address big_endian size_t sockaddr_in sockaddr_in6 sin_port
    uv_ip4_addr uv_ip6_addr uv_ip4_name uv_ip6_name I.

Definition address_handle (I : details.family) (U : Type) :
    option ((U -> Z -> Z * sockaddr_storage * Z) -> U -> option Addr) :=
  details.address_handle big_endian size_t sockaddr_in sockaddr_in6
    sockaddr_storage sin_port
    uv_ip4_addr uv_ip6_addr uv_ip4_name uv_ip6_name
    sizeof_sockaddr_storage
    (as_sockaddr_in big_endian) (as_sockaddr_in6 big_endian) I U.

(** The instances at [IPv4]. *)
Definition address4 : sockaddr_in -> Z -> option Addr :=
  details.address_body big_endian size_t sockaddr_in sockaddr_in6
    uv_ip4_addr uv_ip6_addr uv_ip4_name uv_ip6_name details.IPv4 sin_port.

Definition address_handle4 {U : Type}
    : (U -> Z -> Z * sockaddr_storage * Z) -> U -> option Addr :=
  details.address_handle_body sockaddr_in sockaddr_in6 sockaddr_storage
    uv_ip4_addr uv_ip6_addr uv_ip4_name uv_ip6_name
    sizeof_sockaddr_storage
    (as_sockaddr_in big_endian) (as_sockaddr_in6 big_endian)
    details.IPv4 address4.

End Primitives.

(** *** Sample buffers and accessors (little-endian host)

    A [sockaddr_in] for 127.0.0.1:8080 as it lies in memory, and a buffer
    whose recorded family is [AF_INET6], holding [::1] port 443, with the
    octets 127.0.0.1 where a [sockaddr_in] has its address. *)
Definition loopback4_octets : sockaddr_storage :=
  [2; 0; 31; 144; 127; 0; 0; 1; 0; 0; 0; 0; 0; 0; 0; 0].

Definition loopback6_octets : sockaddr_storage :=
  [10; 0; 1; 187; 127; 0; 0; 1;
   0; 0; 0; 0; 0; 0; 0; 0; 0; 0; 0; 0; 0; 0; 0; 1;
   0; 0; 0; 0].

Definition loopback4 : sockaddr_in := as_sockaddr_in false loopback4_octets.
Definition loopback6 : sockaddr_in6 := as_sockaddr_in6 false loopback6_octets.

(** The storage [uv_ip4_addr] builds. *)
Definition built4 : sockaddr_in := snd (uv_ip4_addr false "127.0.0.1" 8080).

(** An accessor that fails with [UV_EBADF] after filling the buffer, and
    one that fills it and succeeds. *)
Definition UV_EBADF : Z := -9.

Definition failing_accessor (ssto : sockaddr_storage) (len' : Z)
    (handle : unit) (len : Z) : Z * sockaddr_storage * Z :=
  (UV_EBADF, ssto, len').

Definition filling_accessor (ssto : sockaddr_storage) (len' : Z)
    (handle : unit) (len : Z) : Z * sockaddr_storage * Z :=
  (0, ssto, len').

End Platform.

(** ** An enumeration with a zero enumerator

    [Flags] is instantiated by the wrapper with libuv's flag enumerations.
    [uv_stdio_flags] is one whose first enumerator, [UV_IGNORE], is zero. *)

Module StdIO.

Inductive StdIO :=
| IGNORE_STREAM | CREATE_PIPE | INHERIT_FD | INHERIT_STREAM
| READABLE_PIPE | WRITABLE_PIPE.

Definition underlying (flag : StdIO) : Z :=
  match flag with
  | IGNORE_STREAM => 0
  | CREATE_PIPE => 1
  | INHERIT_FD => 2
  | INHERIT_STREAM => 4
  | READABLE_PIPE => 16
  | WRITABLE_PIPE => 32
  end.

Definition InnerType : IntType := unsigned_int.

(** The members of [Flags<StdIO>]. *)
Definition toInner : StdIO -> Z := Flags.toInnerType InnerType underlying.
Definition of_enum : StdIO -> Flags.Flags StdIO :=
  Flags.of_enum InnerType underlying.
Definition or_enum : Flags.Flags StdIO -> StdIO -> Flags.Flags StdIO :=
  Flags.or_enum InnerType underlying.
Definition and_enum : Flags.Flags StdIO -> StdIO -> Flags.Flags StdIO :=
  Flags.and_enum InnerType underlying.

(** [Flags<StdIO>(5)]: [CREATE_PIPE | INHERIT_STREAM]. *)
Definition pipe_and_stream : Flags.Flags StdIO := Flags.of_raw 5.

End StdIO.

(** * Properties *)

(** ** Fixed-width integers *)

Section IntLemmas.

Variable t : IntType.

Lemma bit_width_pos : 0 < bit_width t.
Proof. reflexivity. Qed.

Lemma pow2_bit_width_split : 2 ^ bit_width t = 2 * 2 ^ (bit_width t - 1).
Proof.
  pose proof bit_width_pos.
  rewrite <- Z.pow_succ_r by lia. f_equal. lia.
Qed.

Lemma pow2_half_pos : 0 < 2 ^ (bit_width t - 1).
Proof. pose proof bit_width_pos. apply Z.pow_pos_nonneg; lia. Qed.

Lemma convert_in_range (z : Z) : in_range t (convert t z).
Proof.
  pose proof pow2_bit_width_split as Hs. pose proof pow2_half_pos as Hh.
  unfold in_range, int_min, int_max, convert.
  destruct (is_signed t).
  - pose proof (Z.mod_pos_bound (z + 2 ^ (bit_width t - 1)) (2 ^ bit_width t)). lia.
  - pose proof (Z.mod_pos_bound z (2 ^ bit_width t)). lia.
Qed.

Lemma convert_id (z : Z) : in_range t z -> convert t z = z.
Proof.
  pose proof pow2_bit_width_split as Hs. pose proof pow2_half_pos as Hh.
  unfold in_range, int_min, int_max, convert.
  destruct (is_signed t); intros Hz.
  - rewrite Z.mod_small; lia.
  - rewrite Z.mod_small; lia.
Qed.

Lemma in_range_0 : in_range t 0.
Proof.
  pose proof pow2_bit_width_split as Hs. pose proof pow2_half_pos as Hh.
  unfold in_range, int_min, int_max. destruct (is_signed t); lia.
Qed.

End IntLemmas.

(** A value lies in [[0, 2^n)] exactly when shifting it right by [n] leaves
    nothing, and in [[-2^n, 2^n)] exactly when it leaves the sign. *)
Lemma shiftr_zero_iff (n a : Z) :
  0 <= n -> (Z.shiftr a n = 0 <-> 0 <= a < 2 ^ n).
Proof.
  intros Hn. rewrite Z.shiftr_div_pow2 by assumption.
  assert (0 < 2 ^ n) by (apply Z.pow_pos_nonneg; lia).
  rewrite Z.div_small_iff by lia. lia.
Qed.

Lemma shiftr_sign_iff (n a : Z) :
  0 <= n -> (Z.shiftr a n = 0 \/ Z.shiftr a n = -1 <-> - 2 ^ n <= a < 2 ^ n).
Proof.
  intros Hn. rewrite Z.shiftr_div_pow2 by assumption.
  assert (Hp : 0 < 2 ^ n) by (apply Z.pow_pos_nonneg; lia).
  pose proof (Z.div_mod a (2 ^ n) ltac:(lia)) as Hd.
  pose proof (Z.mod_pos_bound a (2 ^ n) Hp) as Hm.
  split; [intros [H | H]; rewrite H in Hd; lia | intros H; nia].
Qed.

Lemma in_range_shiftr (t : IntType) (z : Z) :
  in_range t z <->
  if is_signed t
  then Z.shiftr z (bit_width t - 1) = 0 \/ Z.shiftr z (bit_width t - 1) = -1
  else Z.shiftr z (bit_width t) = 0.
Proof.
  pose proof (bit_width_pos t).
  unfold in_range, int_min, int_max. destruct (is_signed t).
  - rewrite shiftr_sign_iff by lia. lia.
  - rewrite shiftr_zero_iff by lia. lia.
Qed.

(** The bitwise operations stay inside the type. *)
Lemma lor_in_range (t : IntType) (a b : Z) :
  in_range t a -> in_range t b -> in_range t (Z.lor a b).
Proof.
  rewrite !in_range_shiftr.
  destruct (is_signed t); rewrite Z.shiftr_lor.
  - intros [-> | ->] [-> | ->]; cbn; auto.
  - intros -> ->. reflexivity.
Qed.

Lemma land_in_range (t : IntType) (a b : Z) :
  in_range t a -> in_range t b -> in_range t (Z.land a b).
Proof.
  rewrite !in_range_shiftr.
  destruct (is_signed t); rewrite Z.shiftr_land.
  - intros [-> | ->] [-> | ->]; cbn; auto.
  - intros -> ->. reflexivity.
Qed.

(** ** [Flags] *)

Section FlagsProperties.

Import Flags.

Variable E : Type.
Variable InnerType : IntType.
Variable underlying : E -> Z.

Local Abbreviation toInner := (toInnerType InnerType underlying).
Local Abbreviation Flags_of := (of_enum InnerType underlying).
Notation "x '|f' y" := (or InnerType x y) (at level 50, left associativity).
Notation "x '|e' y" := (or_enum InnerType underlying x y)
                         (at level 50, left associativity).
Notation "x '&f' y" := (and InnerType x y) (at level 40, left associativity).
Notation "x '&e' y" := (and_enum InnerType underlying x y)
                         (at level 40, left associativity).

Lemma flags_inj (a b : Flags E) : flags a = flags b -> a = b.
Proof. destruct a, b; cbn; congruence. Qed.

Lemma toInnerType_in_range (flag : E) : in_range InnerType (toInner flag).
Proof. apply convert_in_range. Qed.

Lemma wf_of_enum (flag : E) : wf InnerType (Flags_of flag).
Proof. apply toInnerType_in_range. Qed.

Lemma wf_empty : wf InnerType (@empty E).
Proof. apply in_range_0. Qed.

(** On objects of the type, the operators compute the bitwise operation:
    the conversion back to [Type] changes nothing. *)
Lemma flags_or (a f : Flags E) :
  wf InnerType a -> wf InnerType f ->
  flags (a |f f) = Z.lor (flags a) (flags f).
Proof. intros; cbn. apply convert_id, lor_in_range; assumption. Qed.

Lemma flags_or_enum (a : Flags E) (flag : E) :
  wf InnerType a -> flags (a |e flag) = Z.lor (flags a) (toInner flag).
Proof.
  intros; cbn.
  apply convert_id, lor_in_range; auto using toInnerType_in_range.
Qed.

Lemma flags_and (a f : Flags E) :
  wf InnerType a -> wf InnerType f ->
  flags (a &f f) = Z.land (flags a) (flags f).
Proof. intros; cbn. apply convert_id, land_in_range; assumption. Qed.

Lemma flags_and_enum (a : Flags E) (flag : E) :
  wf InnerType a -> flags (a &e flag) = Z.land (flags a) (toInner flag).
Proof.
  intros; cbn.
  apply convert_id, land_in_range; auto using toInnerType_in_range.
Qed.

Lemma wf_or (a f : Flags E) : wf InnerType (a |f f).
Proof. apply convert_in_range. Qed.

Lemma wf_or_enum (a : Flags E) (flag : E) : wf InnerType (a |e flag).
Proof. apply convert_in_range. Qed.

Lemma wf_and (a f : Flags E) : wf InnerType (a &f f).
Proof. apply convert_in_range. Qed.

Lemma wf_and_enum (a : Flags E) (flag : E) : wf InnerType (a &e flag).
Proof. apply convert_in_range. Qed.

Lemma to_bool_true_iff (f : Flags E) : to_bool f = true <-> to_raw f <> 0.
Proof.
  unfold to_bool, to_raw. rewrite negb_true_iff, Z.eqb_neq. reflexivity.
Qed.

Lemma to_bool_false_iff (f : Flags E) : to_bool f = false <-> to_raw f = 0.
Proof.
  unfold to_bool, to_raw. rewrite negb_false_iff, Z.eqb_eq. reflexivity.
Qed.

(** Intersecting the union of [a] and [b] with [a] gives back [a] whenever
    the two bit patterns are disjoint. *)
Lemma and_or_enum_disjoint (a b : E) :
  Z.land (toInner a) (toInner b) = 0 ->
  (Flags_of a |e b) &e a = Flags_of a.
Proof.
  intros Hd. apply flags_inj.
  rewrite flags_and_enum by apply wf_or_enum.
  rewrite flags_or_enum by apply wf_of_enum.
  cbn. rewrite Z.land_lor_distr_l, Z.land_diag.
  rewrite (Z.land_comm (toInner b)), Hd. apply Z.lor_0_r.
Qed.

Lemma and_enum_disjoint (a b : E) :
  Z.land (toInner a) (toInner b) = 0 ->
  Flags_of a &e b = empty.
Proof.
  intros Hd. apply flags_inj.
  rewrite flags_and_enum by apply wf_of_enum.
  cbn. exact Hd.
Qed.

End FlagsProperties.

(** ** Byte order *)

Lemma lor_shiftl_8 (h l : Z) : 0 <= l < 256 -> Z.lor (Z.shiftl h 8) l = h * 256 + l.
Proof.
  intros Hl.
  assert (Hd : Z.land (Z.shiftl h 8) l = 0).
  { apply Z.bits_inj'; intros n Hn.
    rewrite Z.land_spec, Z.bits_0.
    destruct (Z.lt_ge_cases n 8) as [Hlt | Hge].
    - rewrite Z.shiftl_spec_low by assumption. reflexivity.
    - rewrite <- (Z.mod_small l (2 ^ 8)) by (cbn; lia).
      rewrite Z.mod_pow2_bits_high by lia. apply andb_false_r. }
  rewrite <- Z.lxor_lor by assumption.
  rewrite <- Z.add_nocarry_lxor by assumption.
  rewrite Z.shiftl_mul_pow2 by lia. reflexivity.
Qed.

Lemma bswap16_eq (x : Z) :
  details.bswap16 x = (x mod 256) * 256 + (x / 256) mod 256.
Proof.
  unfold details.bswap16.
  change 255 with (Z.ones 8). rewrite !Z.land_ones by lia.
  rewrite Z.shiftr_div_pow2 by lia. change (2 ^ 8) with 256.
  apply lor_shiftl_8. apply Z.mod_pos_bound. lia.
Qed.

Lemma bswap16_range (x : Z) : 0 <= details.bswap16 x < 65536.
Proof.
  rewrite bswap16_eq.
  pose proof (Z.mod_pos_bound x 256). pose proof (Z.mod_pos_bound (x / 256) 256).
  lia.
Qed.

Lemma bswap16_involutive (x : Z) :
  0 <= x < 65536 -> details.bswap16 (details.bswap16 x) = x.
Proof.
  intros Hx. rewrite (bswap16_eq (details.bswap16 x)), (bswap16_eq x).
  Z.to_euclidean_division_equations. lia.
Qed.

Lemma convert_uint16 (x : Z) : convert uint16_t x = x mod 65536.
Proof. reflexivity. Qed.

Lemma ntohs_range (big_endian : bool) (x : Z) :
  0 <= details.ntohs big_endian x < 65536.
Proof.
  unfold details.ntohs. rewrite convert_uint16. destruct big_endian.
  - apply Z.mod_pos_bound. lia.
  - apply bswap16_range.
Qed.

Lemma htons_range (big_endian : bool) (x : Z) :
  0 <= details.htons big_endian x < 65536.
Proof. apply ntohs_range. Qed.

(** Converting a port to network order and back gives the port. *)
Lemma ntohs_htons (big_endian : bool) (p : Z) :
  0 <= p < 65536 -> details.ntohs big_endian (details.htons big_endian p) = p.
Proof.
  intros Hp. unfold details.ntohs, details.htons. rewrite !convert_uint16.
  destruct big_endian.
  - rewrite Z.mod_mod by lia. apply Z.mod_small. assumption.
  - rewrite (Z.mod_small p) by assumption.
    rewrite (Z.mod_small (details.bswap16 p)) by apply bswap16_range.
    apply bswap16_involutive. assumption.
Qed.

(** On either kind of host, [ntohs] of a field stored as the octets [b0 b1]
    is the number those octets spell in network order. *)
Lemma ntohs_load16 (big_endian : bool) (b0 b1 : Z) :
  0 <= b0 < 256 -> 0 <= b1 < 256 ->
  details.ntohs big_endian (details.load16 big_endian b0 b1) = b0 * 256 + b1.
Proof.
  intros H0 H1. unfold details.ntohs, details.load16. rewrite convert_uint16.
  destruct big_endian; rewrite lor_shiftl_8 by assumption.
  - apply Z.mod_small. lia.
  - rewrite Z.mod_small by lia. rewrite bswap16_eq.
    Z.to_euclidean_division_equations. lia.
Qed.

Lemma convert_unsigned_int_ntohs (big_endian : bool) (x : Z) :
  convert unsigned_int (details.ntohs big_endian x) = details.ntohs big_endian x.
Proof.
  pose proof (ntohs_range big_endian x).
  unfold convert, unsigned_int; cbn. apply Z.mod_small. lia.
Qed.

(** ** The local array *)

(** Whether a text holds a [NUL] character. *)
Definition has_NUL (s : string) : bool :=
  existsb (Ascii.eqb "000"%char) (list_ascii_of_string s).

(** A text stored with its terminating [NUL] inside the array is read back
    as it is, whatever follows the [NUL]. *)
Lemma string_of_array_text (s : string) (rest : list ascii) (n : nat) :
  has_NUL s = false ->
  (String.length s < n)%nat ->
  details.string_of_array n (list_ascii_of_string s ++ "000"%char :: rest)
  = Some s.
Proof.
  unfold has_NUL. revert n.
  induction s as [| c s IH]; intros n Hs Hn;
    cbn [list_ascii_of_string app existsb String.length] in *.
  - destruct n as [| n]; [inversion Hn | reflexivity].
  - destruct n as [| n]; [inversion Hn |].
    apply orb_false_iff in Hs. destruct Hs as [Hc Hs].
    cbn [details.string_of_array]. rewrite Ascii.eqb_sym, Hc.
    rewrite IH by (try assumption; apply PeanoNat.lt_S_n; exact Hn).
    reflexivity.
Qed.

(** What is read out of the array holds no [NUL]. *)
Lemma string_of_array_no_NUL (n : nat) (name : list ascii) (s : string) :
  details.string_of_array n name = Some s -> has_NUL s = false.
Proof.
  unfold has_NUL. revert name s.
  induction n as [| n IH]; intros [| c rest] s; cbn [details.string_of_array];
    try discriminate.
  destruct (Ascii.eqb_spec c "000"%char) as [-> | Hc].
  - intros [= <-]. reflexivity.
  - destruct (details.string_of_array n rest) as [s' |] eqn:Hrest;
      cbn [option_map]; [| discriminate].
    intros [= <-]. cbn [list_ascii_of_string existsb].
    rewrite (IH rest s' Hrest), orb_false_r.
    apply Ascii.eqb_neq. congruence.
Qed.

(** ** [details::address] *)

Section AddressProperties.

Import details.

Variable big_endian : bool.
Variable size_t : IntType.
Variable sockaddr_in sockaddr_in6 sockaddr_storage : Type.
Variable sin_port : sockaddr_in -> Z.
Variable uv_ip4_addr : string -> Z -> Z * sockaddr_in.
Variable uv_ip6_addr : string -> Z -> Z * sockaddr_in6.
Variable uv_ip4_name : sockaddr_in -> Z -> Z * list ascii.
Variable uv_ip6_name : sockaddr_in6 -> Z -> Z * list ascii.
Variable sizeof_sockaddr_storage : Z.
Variable as_sockaddr_in : sockaddr_storage -> sockaddr_in.
Variable as_sockaddr_in6 : sockaddr_storage -> sockaddr_in6.

Local Abbreviation Tr :=
  (IpTraits sockaddr_in sockaddr_in6
            uv_ip4_addr uv_ip6_addr uv_ip4_name uv_ip6_name).
Local Abbreviation address_at :=
  (address big_endian size_t sockaddr_in sockaddr_in6 sin_port
           uv_ip4_addr uv_ip6_addr uv_ip4_name uv_ip6_name).
Local Abbreviation address_handle_at :=
  (address_handle big_endian size_t sockaddr_in sockaddr_in6 sockaddr_storage
                  sin_port uv_ip4_addr uv_ip6_addr uv_ip4_name uv_ip6_name
                  sizeof_sockaddr_storage as_sockaddr_in as_sockaddr_in6).
Local Abbreviation body4 :=
  (address_body big_endian size_t sockaddr_in sockaddr_in6
                uv_ip4_addr uv_ip6_addr uv_ip4_name uv_ip6_name IPv4 sin_port).
Local Abbreviation handle_body4 U :=
  (@address_handle_body sockaddr_in sockaddr_in6 sockaddr_storage
                        uv_ip4_addr uv_ip6_addr uv_ip4_name uv_ip6_name
                        sizeof_sockaddr_storage as_sockaddr_in as_sockaddr_in6
                        IPv4 body4 U).
Local Abbreviation capacity := (convert int sizeof_sockaddr_storage).

(** The two instantiations. *)
Lemma address_IPv4 : address_at IPv4 = Some body4.
Proof. reflexivity. Qed.

Lemma address_IPv6 : address_at IPv6 = None.
Proof. reflexivity. Qed.

Lemma address_handle_IPv4 (U : Type) :
  address_handle_at IPv4 U = Some (handle_body4 U).
Proof. reflexivity. Qed.

Lemma address_handle_IPv6 (U : Type) : address_handle_at IPv6 U = None.
Proof. reflexivity. Qed.

(** The branches of [address<IPv4>(aptr, len)]. *)
Lemma body4_name_ok (aptr : sockaddr_in) (len : Z) (name : list ascii)
    (text : string) :
  0 <= len ->
  uv_ip4_name aptr (convert size_t len) = (0, name) ->
  string_of_array (Z.to_nat len) name = Some text ->
  body4 aptr len = Some (mkAddr text (ntohs big_endian (sin_port aptr))).
Proof.
  intros Hlen H Htext. unfold address_body.
  rewrite (proj2 (Z.ltb_ge len 0) Hlen). cbn [IpTraits NameFunc].
  rewrite H, Htext, convert_unsigned_int_ntohs. reflexivity.
Qed.

Lemma body4_name_err (aptr : sockaddr_in) (len : Z) (err : Z)
    (name : list ascii) :
  0 <= len ->
  uv_ip4_name aptr (convert size_t len) = (err, name) ->
  err <> 0 ->
  body4 aptr len = Some default_Addr.
Proof.
  intros Hlen H Herr. unfold address_body.
  rewrite (proj2 (Z.ltb_ge len 0) Hlen). cbn [IpTraits NameFunc].
  rewrite H.
  destruct (Z.eqb_spec 0 err) as [Heq | _]; [congruence | reflexivity].
Qed.

Lemma body4_negative (aptr : sockaddr_in) (len : Z) :
  len < 0 -> body4 aptr len = None.
Proof.
  intros Hlen. unfold address_body.
  rewrite (proj2 (Z.ltb_lt len 0) Hlen). reflexivity.
Qed.

(** What a returned [Addr] tells. *)
Lemma body4_returns (aptr : sockaddr_in) (len : Z) (a : Addr) :
  body4 aptr len = Some a ->
  0 <= len
  /\ ((fst (uv_ip4_name aptr (convert size_t len)) <> 0 /\ a = default_Addr)
      \/ (fst (uv_ip4_name aptr (convert size_t len)) = 0
          /\ exists text,
               string_of_array (Z.to_nat len)
                 (snd (uv_ip4_name aptr (convert size_t len))) = Some text
               /\ a = mkAddr text (ntohs big_endian (sin_port aptr)))).
Proof.
  intros Ha.
  destruct (Z.lt_ge_cases len 0) as [Hneg | Hlen].
  { rewrite (body4_negative aptr len Hneg) in Ha. discriminate. }
  split; [exact Hlen |].
  destruct (uv_ip4_name aptr (convert size_t len)) as [err name] eqn:H.
  cbn [fst snd].
  destruct (Z.eq_dec err 0) as [-> | Hne].
  - right. split; [reflexivity |].
    destruct (string_of_array (Z.to_nat len) name) as [text |] eqn:Htext.
    + exists text. split; [reflexivity |].
      rewrite (body4_name_ok aptr len name text Hlen H Htext) in Ha.
      congruence.
    + exfalso. unfold address_body in Ha.
      rewrite (proj2 (Z.ltb_ge len 0) Hlen) in Ha.
      cbn [IpTraits NameFunc] in Ha. rewrite H, Htext in Ha. discriminate.
  - left. split; [exact Hne |].
    rewrite (body4_name_err aptr len err name Hlen H Hne) in Ha. congruence.
Qed.

(** The branches of [address<IPv4>(f, handle)]. *)
Lemma handle_body4_ok (U : Type) (f : U -> Z -> Z * sockaddr_storage * Z)
    (handle : U) (ssto : sockaddr_storage) (len : Z) :
  f handle capacity = (0, ssto, len) ->
  handle_body4 U f handle = body4 (as_sockaddr_in ssto) len.
Proof. intros H. unfold address_handle_body. rewrite H. reflexivity. Qed.

Lemma handle_body4_err (U : Type) (f : U -> Z -> Z * sockaddr_storage * Z)
    (handle : U) (err : Z) (ssto : sockaddr_storage) (len : Z) :
  f handle capacity = (err, ssto, len) ->
  err <> 0 ->
  handle_body4 U f handle = Some default_Addr.
Proof.
  intros H Herr. unfold address_handle_body. rewrite H.
  destruct (Z.eqb_spec 0 err) as [Heq | _]; [congruence | reflexivity].
Qed.

(** C1. [address<IPv6>(aptr, len)] is ill-formed: its body reads
    [aptr->sin_port], and [sockaddr_in6] has no member of that name.
    [address<IPv4>(aptr, len)] does what the claim says: for [len >= 0],
    when [uv_ip4_name] returns 0 and the text it stored ends inside the
    array, the result is the [Addr] of that text and of [ntohs] of the port
    member. *)
Theorem address_renders_storage :
  address_at IPv6 = None
  /\ exists address4,
       address_at IPv4 = Some address4
       /\ forall (aptr : sockaddr_in) (len : Z) (text : string),
            0 <= len ->
            fst (uv_ip4_name aptr (convert size_t len)) = 0 ->
            string_of_array (Z.to_nat len)
              (snd (uv_ip4_name aptr (convert size_t len))) = Some text ->
            address4 aptr len
            = Some (mkAddr text (ntohs big_endian (sin_port aptr))).
Proof.
  split; [exact address_IPv6 |].
  exists body4. split; [exact address_IPv4 |].
  intros aptr len text Hlen Hok Htext.
  destruct (uv_ip4_name aptr (convert size_t len)) as [err name] eqn:H.
  cbn [fst snd] in Hok, Htext. subst err.
  exact (body4_name_ok aptr len name text Hlen H Htext).
Qed.

(** C3. [address<IPv6>(f, handle)] is ill-formed, as it calls
    [address<IPv6>(aptr, len)].  [address<IPv4>(f, handle)] returns the
    default [Addr{"", 0}] whenever the accessor returns a nonzero status,
    whatever the accessor stored in the buffer and in [len]. *)
Theorem address_handle_accessor_failure (U : Type) :
  address_handle_at IPv6 U = None
  /\ exists address_handle4,
       address_handle_at IPv4 U = Some address_handle4
       /\ forall (f : U -> Z -> Z * sockaddr_storage * Z) (handle : U)
                 (err : Z) (ssto : sockaddr_storage) (len : Z),
            f handle capacity = (err, ssto, len) ->
            err <> 0 ->
            address_handle4 f handle = Some (mkAddr "" 0).
Proof.
  split; [exact (address_handle_IPv6 U) |].
  exists (handle_body4 U). split; [exact (address_handle_IPv4 U) |].
  intros f handle err ssto len H Herr.
  exact (handle_body4_err U f handle err ssto len H Herr).
Qed.

(** C4. [address<IPv6>(aptr, len)] is ill-formed.  For [len >= 0],
    [address<IPv4>(aptr, len)] returns the default [Addr{"", 0}] whenever
    [uv_ip4_name] returns nonzero: the port is 0 whatever the port member
    holds. *)
Theorem address_render_failure :
  address_at IPv6 = None
  /\ exists address4,
       address_at IPv4 = Some address4
       /\ forall (aptr : sockaddr_in) (len : Z),
            0 <= len ->
            fst (uv_ip4_name aptr (convert size_t len)) <> 0 ->
            address4 aptr len = Some (mkAddr "" 0).
Proof.
  split; [exact address_IPv6 |].
  exists body4. split; [exact address_IPv4 |].
  intros aptr len Hlen Herr.
  destruct (uv_ip4_name aptr (convert size_t len)) as [err name] eqn:H.
  cbn [fst] in Herr.
  exact (body4_name_err aptr len err name Hlen H Herr).
Qed.

(** C5. [address<IPv6>(f, handle)] is ill-formed.  When the accessor
    succeeds, [address<IPv4>(f, handle)] is [address<IPv4>] of the filled
    buffer viewed as a [sockaddr_in], with the length the accessor stored;
    and of that [sockaddr_in] nothing is read but the member [sin_port] and
    what [uv_ip4_name] makes of it: two storages that agree on these resolve
    alike, whatever family each records. *)
Theorem address_handle_dispatch_by_tag (U : Type) :
  address_handle_at IPv6 U = None
  /\ exists address4 address_handle4,
       address_at IPv4 = Some address4
       /\ address_handle_at IPv4 U = Some address_handle4
       /\ (forall (f : U -> Z -> Z * sockaddr_storage * Z) (handle : U)
                  (ssto : sockaddr_storage) (len : Z),
             f handle capacity = (0, ssto, len) ->
             address_handle4 f handle = address4 (as_sockaddr_in ssto) len)
       /\ (forall (a a' : sockaddr_in) (len : Z),
             sin_port a = sin_port a' ->
             uv_ip4_name a (convert size_t len)
             = uv_ip4_name a' (convert size_t len) ->
             address4 a len = address4 a' len).
Proof.
  split; [exact (address_handle_IPv6 U) |].
  exists body4, (handle_body4 U).
  split; [exact address_IPv4 |].
  split; [exact (address_handle_IPv4 U) |].
  split.
  - intros f handle ssto len H. exact (handle_body4_ok U f handle ssto len H).
  - intros a a' len Hport Hname. unfold address_body.
    cbn [IpTraits NameFunc]. rewrite Hport, Hname. reflexivity.
Qed.

End AddressProperties.

(** *** On the reference platform *)

Section PlatformExamples.

Import details Platform.

Lemma convert_size_t_int (len : Z) :
  0 <= len <= int_max int -> convert size_t len = len.
Proof.
  intros Hlen. apply convert_id.
  unfold in_range, int_min, int_max, int, size_t, bit_width in *; cbn in *.
  lia.
Qed.

Lemma uv_ip4_addr_loopback (big_endian : bool) (p : Z) :
  uv_ip4_addr big_endian "127.0.0.1" p
  = (0, mkSockaddrIn AF_INET (htons big_endian p) [127; 0; 0; 1]).
Proof. reflexivity. Qed.

Lemma uv_ip6_addr_loopback (big_endian : bool) (p : Z) :
  uv_ip6_addr big_endian "::1" p
  = (0, mkSockaddrIn6 AF_INET6 (htons big_endian p) 0
          [0; 0; 0; 0; 0; 0; 0; 0; 0; 0; 0; 0; 0; 0; 0; 1] 0).
Proof. reflexivity. Qed.

(** [uv_ip4_name] needs room for the nine characters and the [NUL]. *)
Lemma inet_ntop4_loopback (size : Z) :
  9 < size ->
  inet_ntop4 [127; 0; 0; 1] size
  = (0, list_ascii_of_string "127.0.0.1" ++ ["000"%char]).
Proof.
  intros Hsize. unfold inet_ntop4.
  change (format_ip4 [127; 0; 0; 1]) with (list_ascii_of_string "127.0.0.1").
  change (Z.of_nat (List.length (list_ascii_of_string "127.0.0.1"))) with 9.
  rewrite Z.geb_leb, (proj2 (Z.leb_gt size 9) Hsize). reflexivity.
Qed.

Lemma inet_ntop4_loopback_short (size : Z) :
  size <= 9 -> fst (inet_ntop4 [127; 0; 0; 1] size) = UV_ENOSPC.
Proof.
  intros Hsize. unfold inet_ntop4.
  change (format_ip4 [127; 0; 0; 1]) with (list_ascii_of_string "127.0.0.1").
  change (Z.of_nat (List.length (list_ascii_of_string "127.0.0.1"))) with 9.
  rewrite Z.geb_leb, (proj2 (Z.leb_le size 9) Hsize). reflexivity.
Qed.

Lemma address_IPv4_platform (big_endian : bool) :
  address big_endian IPv4 = Some (address4 big_endian).
Proof. reflexivity. Qed.

Lemma address_handle_IPv4_platform (big_endian : bool) (U : Type) :
  address_handle big_endian IPv4 U = Some (address_handle4 big_endian (U := U)).
Proof. reflexivity. Qed.

(** C2. On the platform, on a host of either byte order, for every 16-bit
    port and every [len] that leaves room for the text: [uv_ip4_addr] builds
    the storage of ["127.0.0.1"] and [address<IPv4>] resolves it to
    [Addr{"127.0.0.1", port}].  [uv_ip6_addr] builds the storage of ["::1"]
    and [uv_ip6_name] renders it as ["::1"], but [address<IPv6>] is
    ill-formed: nothing resolves the storage. *)
Theorem construct_render_roundtrip (big_endian : bool) (p len : Z) :
  0 <= p < 65536 ->
  10 <= len <= int_max int ->
  (fst (uv_ip4_addr big_endian "127.0.0.1" p) = 0
   /\ exists address4,
        address big_endian IPv4 = Some address4
        /\ address4 (snd (uv_ip4_addr big_endian "127.0.0.1" p)) len
           = Some (mkAddr "127.0.0.1" p))
  /\ (fst (uv_ip6_addr big_endian "::1" p) = 0
      /\ uv_ip6_name (snd (uv_ip6_addr big_endian "::1" p)) 28
         = (0, list_ascii_of_string "::1" ++ ["000"%char])
      /\ address big_endian IPv6 = None).
Proof.
  intros Hp Hlen. split.
  - split; [reflexivity |].
    exists (address4 big_endian). split; [reflexivity |].
    rewrite uv_ip4_addr_loopback. cbn [snd].
    rewrite <- (ntohs_htons big_endian p Hp) at 2.
    apply (body4_name_ok big_endian size_t sockaddr_in sockaddr_in6 sin_port
             (uv_ip4_addr big_endian) (uv_ip6_addr big_endian)
             uv_ip4_name uv_ip6_name
             (mkSockaddrIn AF_INET (htons big_endian p) [127; 0; 0; 1]) len
             (list_ascii_of_string "127.0.0.1" ++ ["000"%char])
             "127.0.0.1"%string).
    + lia.
    + rewrite convert_size_t_int by lia.
      unfold uv_ip4_name. cbn [sin_addr].
      apply inet_ntop4_loopback. lia.
    + apply string_of_array_text; [reflexivity |].
      cbn [String.length]. lia.
  - rewrite uv_ip6_addr_loopback. repeat split.
Qed.

Lemma construct_render_roundtrip_witness :
  (0 <= 8080 < 65536 /\ 0 <= 443 < 65536 /\ 10 <= 16 <= int_max int)
  /\ (exists address4,
        address false IPv4 = Some address4
        /\ address4 (snd (uv_ip4_addr false "127.0.0.1" 8080)) 16
           = Some (mkAddr "127.0.0.1" 8080))
  /\ fst (uv_ip6_addr false "::1" 443) = 0
  /\ address false IPv6 = None.
Proof.
  assert (Hp : 0 <= 8080 < 65536) by (split; [discriminate | reflexivity]).
  assert (Hq : 0 <= 443 < 65536) by (split; [discriminate | reflexivity]).
  assert (Hlen : 10 <= 16 <= int_max int) by (split; discriminate).
  split; [exact (conj Hp (conj Hq Hlen)) |].
  split; [exact (proj2 (proj1 (construct_render_roundtrip false 8080 16
                                  Hp Hlen))) |].
  pose proof (proj2 (construct_render_roundtrip false 443 16 Hq Hlen))
    as [H6 [_ Hnone]].
  exact (conj H6 Hnone).
Defined.

Lemma address_renders_storage_witness :
  (0 <= 16
   /\ fst (uv_ip4_name loopback4 (convert size_t 16)) = 0
   /\ string_of_array (Z.to_nat 16)
        (snd (uv_ip4_name loopback4 (convert size_t 16)))
      = Some "127.0.0.1"%string)
  /\ address false IPv6 = None
  /\ exists address4,
       address false IPv4 = Some address4
       /\ address4 loopback4 16 = Some (mkAddr "127.0.0.1" 8080).
Proof.
  assert (Hlen : 0 <= 16) by discriminate.
  split; [exact (conj Hlen (conj eq_refl eq_refl)) |].
  destruct (address_renders_storage false size_t sockaddr_in sockaddr_in6
              sin_port (uv_ip4_addr false) (uv_ip6_addr false)
              uv_ip4_name uv_ip6_name)
    as [H6 [address4 [H4 Hspec]]].
  split; [exact H6 |].
  exists address4. split; [exact H4 |].
  exact (Hspec loopback4 16 "127.0.0.1"%string Hlen eq_refl eq_refl).
Defined.

Lemma address_handle_accessor_failure_witness :
  (failing_accessor loopback4_octets 16 tt (convert int sizeof_sockaddr_storage)
   = (UV_EBADF, loopback4_octets, 16)
   /\ UV_EBADF <> 0)
  /\ address_handle false IPv6 unit = None
  /\ exists address_handle4,
       address_handle false IPv4 unit = Some address_handle4
       /\ address_handle4 (failing_accessor loopback4_octets 16) tt
          = Some (mkAddr "" 0).
Proof.
  assert (Hne : UV_EBADF <> 0) by discriminate.
  split; [exact (conj eq_refl Hne) |].
  destruct (address_handle_accessor_failure false size_t
              sockaddr_in sockaddr_in6 sockaddr_storage sin_port
              (uv_ip4_addr false) (uv_ip6_addr false) uv_ip4_name uv_ip6_name
              sizeof_sockaddr_storage
              (as_sockaddr_in false) (as_sockaddr_in6 false) unit)
    as [H6 [address_handle4 [H4 Hspec]]].
  split; [exact H6 |].
  exists address_handle4. split; [exact H4 |].
  exact (Hspec (failing_accessor loopback4_octets 16) tt
           UV_EBADF loopback4_octets 16 eq_refl Hne).
Defined.

Lemma address_render_failure_witness :
  (0 <= 4
   /\ fst (uv_ip4_name loopback4 (convert size_t 4)) <> 0
   /\ sin_port loopback4 <> 0)
  /\ address false IPv6 = None
  /\ exists address4,
       address false IPv4 = Some address4
       /\ address4 loopback4 4 = Some (mkAddr "" 0).
Proof.
  assert (Hlen : 0 <= 4) by discriminate.
  assert (Hne : fst (uv_ip4_name loopback4 (convert size_t 4)) <> 0)
    by discriminate.
  assert (Hport : sin_port loopback4 <> 0) by discriminate.
  split; [exact (conj Hlen (conj Hne Hport)) |].
  destruct (address_render_failure false size_t sockaddr_in sockaddr_in6
              sin_port (uv_ip4_addr false) (uv_ip6_addr false)
              uv_ip4_name uv_ip6_name)
    as [H6 [address4 [H4 Hspec]]].
  split; [exact H6 |].
  exists address4. split; [exact H4 |].
  exact (Hspec loopback4 4 Hlen Hne).
Defined.

Lemma address_handle_dispatch_by_tag_witness :
  (ss_family false loopback6_octets = AF_INET6
   /\ filling_accessor loopback6_octets 28 tt
        (convert int sizeof_sockaddr_storage)
      = (0, loopback6_octets, 28))
  /\ address_handle false IPv6 unit = None
  /\ exists address4 address_handle4,
       address false IPv4 = Some address4
       /\ address_handle false IPv4 unit = Some address_handle4
       /\ address_handle4 (filling_accessor loopback6_octets 28) tt
          = address4 (as_sockaddr_in false loopback6_octets) 28
       /\ address4 (as_sockaddr_in false loopback6_octets) 28
          = Some (mkAddr "127.0.0.1" 443).
Proof.
  split; [exact (conj eq_refl eq_refl) |].
  destruct (address_handle_dispatch_by_tag false size_t
              sockaddr_in sockaddr_in6 sockaddr_storage sin_port
              (uv_ip4_addr false) (uv_ip6_addr false) uv_ip4_name uv_ip6_name
              sizeof_sockaddr_storage
              (as_sockaddr_in false) (as_sockaddr_in6 false) unit)
    as [H6 [address4 [address_handle4 [H4 [Hh4 [Hspec _]]]]]].
  split; [exact H6 |].
  exists address4, address_handle4.
  split; [exact H4 |]. split; [exact Hh4 |].
  split.
  - exact (Hspec (filling_accessor loopback6_octets 28) tt
             loopback6_octets 28 eq_refl).
  - pose proof H4 as H4'.
    change (Some (Platform.address4 false) = Some address4) in H4'.
    injection H4' as <-. reflexivity.
Defined.

(** The primitive [uv_ip4_name] of the platform never looks at the family
    member: two buffers that differ in their first two octets only resolve
    alike under the tag [IPv4]. *)
Lemma address_handle4_ignores_recorded_family (big_endian : bool)
    (f0 f1 g0 g1 : Z) (rest : list Z) (len : Z) :
  address_handle4 big_endian (filling_accessor (f0 :: f1 :: rest) len) tt
  = address_handle4 big_endian (filling_accessor (g0 :: g1 :: rest) len) tt.
Proof. reflexivity. Qed.

(** A text that is no address is refused by both constructors. *)
Example construct_rejects_malformed :
  fst (uv_ip4_addr false "not-an-ip" 80) = UV_EINVAL
  /\ fst (uv_ip6_addr false "not-an-ip" 80) = UV_EINVAL.
Proof. split; reflexivity. Qed.

(** A zone id is taken off the text and looked up. *)
Example construct_with_zone :
  uv_ip6_addr false "fe80::1%lo" 80
  = (0, mkSockaddrIn6 AF_INET6 (htons false 80) 0
          [254; 128; 0; 0; 0; 0; 0; 0; 0; 0; 0; 0; 0; 0; 0; 1] 1).
Proof. reflexivity. Qed.

End PlatformExamples.

(** ** The claims on [Flags] and [FileDescriptor] *)

(** C6, amended. For enumerators [a] and [b] with disjoint bit patterns,
    [(Flags<E>(a) | b) & a] equals [Flags<E>(a)] and [Flags<E>(a) & b]
    converts to false; [(Flags<E>(a) | b) & a] converts to true when the bit
    pattern of [a] is not zero. *)
Theorem Flags_disjoint_enumerators (E : Type) (InnerType : IntType)
    (underlying : E -> Z) (a b : E) :
  Z.land (Flags.toInnerType InnerType underlying a)
         (Flags.toInnerType InnerType underlying b) = 0 ->
  let ab_a :=
    Flags.and_enum InnerType underlying
      (Flags.or_enum InnerType underlying
         (Flags.of_enum InnerType underlying a) b) a in
  ab_a = Flags.of_enum InnerType underlying a
  /\ Flags.to_bool
       (Flags.and_enum InnerType underlying
          (Flags.of_enum InnerType underlying a) b) = false
  /\ (Flags.toInnerType InnerType underlying a <> 0 ->
      Flags.to_bool ab_a = true).
Proof.
  intros Hd ab_a. subst ab_a.
  rewrite (and_or_enum_disjoint E InnerType underlying a b Hd).
  rewrite (and_enum_disjoint E InnerType underlying a b Hd).
  split; [reflexivity | split; [reflexivity |]].
  intros Ha. apply to_bool_true_iff. exact Ha.
Qed.

Lemma Flags_disjoint_enumerators_witness :
  (Z.land (StdIO.toInner StdIO.CREATE_PIPE)
          (StdIO.toInner StdIO.READABLE_PIPE) = 0
   /\ StdIO.toInner StdIO.CREATE_PIPE <> 0)
  /\ StdIO.and_enum
       (StdIO.or_enum (StdIO.of_enum StdIO.CREATE_PIPE) StdIO.READABLE_PIPE)
       StdIO.CREATE_PIPE
     = StdIO.of_enum StdIO.CREATE_PIPE
  /\ Flags.to_bool
       (StdIO.and_enum (StdIO.of_enum StdIO.CREATE_PIPE) StdIO.READABLE_PIPE)
     = false
  /\ Flags.to_bool
       (StdIO.and_enum
          (StdIO.or_enum (StdIO.of_enum StdIO.CREATE_PIPE) StdIO.READABLE_PIPE)
          StdIO.CREATE_PIPE) = true.
Proof.
  assert (Ha : StdIO.toInner StdIO.CREATE_PIPE <> 0) by discriminate.
  split; [exact (conj eq_refl Ha) |].
  destruct (Flags_disjoint_enumerators StdIO.StdIO StdIO.InnerType
              StdIO.underlying StdIO.CREATE_PIPE StdIO.READABLE_PIPE eq_refl)
    as [Heq [Hfalse Htrue]].
  exact (conj Heq (conj Hfalse (Htrue Ha))).
Defined.

(** A zero enumerator keeps the first two parts: here [IGNORE_STREAM] with
    [CREATE_PIPE]. *)
Example Flags_disjoint_zero_enumerator :
  StdIO.and_enum
    (StdIO.or_enum (StdIO.of_enum StdIO.IGNORE_STREAM) StdIO.CREATE_PIPE)
    StdIO.IGNORE_STREAM
  = StdIO.of_enum StdIO.IGNORE_STREAM
  /\ Flags.to_bool
       (StdIO.and_enum (StdIO.of_enum StdIO.IGNORE_STREAM) StdIO.CREATE_PIPE)
     = false.
Proof. split; reflexivity. Qed.

(** C6 as stated fails for an enumerator whose bit pattern is zero: it is
    disjoint from every other, and the intersection converts to false. *)
Lemma Flags_zero_enumerator_converts_false :
  Z.land (StdIO.toInner StdIO.IGNORE_STREAM)
         (StdIO.toInner StdIO.CREATE_PIPE) = 0
  /\ Flags.to_bool
       (StdIO.and_enum
          (StdIO.or_enum (StdIO.of_enum StdIO.IGNORE_STREAM) StdIO.CREATE_PIPE)
          StdIO.IGNORE_STREAM) = false.
Proof. split; reflexivity. Qed.

(** C7. A [Flags] converts to [true] exactly when its integer is not zero;
    [Flags<E>()] converts to [false], and [Flags<E>(a)] converts to [true]
    for an enumerator [a] whose bit pattern is not zero. *)
Theorem Flags_to_bool_nonzero (E : Type) (InnerType : IntType)
    (underlying : E -> Z) (f : Flags.Flags E) (a : E) :
  (Flags.to_bool f = true <-> Flags.to_raw f <> 0)
  /\ Flags.to_bool (@Flags.empty E) = false
  /\ (Flags.toInnerType InnerType underlying a <> 0 ->
      Flags.to_bool (Flags.of_enum InnerType underlying a) = true).
Proof.
  split; [apply to_bool_true_iff | split; [reflexivity |]].
  intros Ha. apply to_bool_true_iff. exact Ha.
Qed.

Lemma Flags_to_bool_nonzero_witness :
  StdIO.toInner StdIO.INHERIT_FD <> 0
  /\ Flags.to_bool (StdIO.of_enum StdIO.INHERIT_FD) = true.
Proof.
  assert (Ha : StdIO.toInner StdIO.INHERIT_FD <> 0) by discriminate.
  split; [exact Ha |].
  exact (proj2 (proj2 (Flags_to_bool_nonzero StdIO.StdIO StdIO.InnerType
                         StdIO.underlying Flags.empty StdIO.INHERIT_FD)) Ha).
Defined.

(** C8. Taking the raw integer of a [Flags] and constructing a [Flags] from
    it gives the same [Flags]. *)
Theorem Flags_raw_roundtrip (E : Type) (f : Flags.Flags E) :
  Flags.of_raw (Flags.to_raw f) = f.
Proof. destruct f. reflexivity. Qed.

(** C9. For a [Flags] object [f], [f | Flags<E>()] equals [f] and
    [f & Flags<E>()] equals [Flags<E>()]. *)
Theorem Flags_empty_identity_annihilator (E : Type) (InnerType : IntType)
    (f : Flags.Flags E) :
  Flags.wf InnerType f ->
  Flags.or InnerType f Flags.empty = f
  /\ Flags.and InnerType f Flags.empty = Flags.empty.
Proof.
  intros Hf. split; apply flags_inj.
  - rewrite flags_or by auto using wf_empty. apply Z.lor_0_r.
  - rewrite flags_and by auto using wf_empty. apply Z.land_0_r.
Qed.

Lemma Flags_empty_identity_annihilator_witness :
  Flags.wf StdIO.InnerType StdIO.pipe_and_stream
  /\ Flags.or StdIO.InnerType StdIO.pipe_and_stream Flags.empty
     = StdIO.pipe_and_stream
  /\ Flags.and StdIO.InnerType StdIO.pipe_and_stream Flags.empty
     = Flags.empty.
Proof.
  assert (Hf : Flags.wf StdIO.InnerType StdIO.pipe_and_stream).
  { split; discriminate. }
  split; [exact Hf |].
  exact (Flags_empty_identity_annihilator StdIO.StdIO StdIO.InnerType
           StdIO.pipe_and_stream Hf).
Defined.

(** C10. [STDIN], [STDOUT] and [STDERR] are [FileDescriptor{0}],
    [FileDescriptor{1}] and [FileDescriptor{2}], and convert back to 0, 1
    and 2. *)
Theorem standard_streams_to_raw :
  (STDIN = mkFileDescriptor 0 /\ fd_to_raw STDIN = 0)
  /\ (STDOUT = mkFileDescriptor 1 /\ fd_to_raw STDOUT = 1)
  /\ (STDERR = mkFileDescriptor 2 /\ fd_to_raw STDERR = 2).
Proof. repeat split. Qed.

(** * Further properties *)

(** ** The algebra of [Flags] *)

Section FlagsAlgebra.

Import Flags.

Variable E : Type.
Variable InnerType : IntType.
Variable underlying : E -> Z.

Local Abbreviation toInner := (toInnerType InnerType underlying).
Local Abbreviation Flags_of := (of_enum InnerType underlying).
Local Abbreviation valid := (wf InnerType).
Local Notation "x '|f' y" := (or InnerType x y) (at level 50, left associativity).
Local Notation "x '|e' y" := (or_enum InnerType underlying x y)
                               (at level 50, left associativity).
Local Notation "x '&f' y" := (and InnerType x y) (at level 40, left associativity).
Local Notation "x '&e' y" := (and_enum InnerType underlying x y)
                               (at level 40, left associativity).

(** Rewriting the four operators into the bitwise operations, on objects of
    the type. *)
Ltac flags_eq :=
  apply flags_inj;
  repeat first
    [ rewrite flags_or by auto using wf_or, wf_and, wf_or_enum, wf_and_enum,
                                     wf_of_enum, wf_empty
    | rewrite flags_and by auto using wf_or, wf_and, wf_or_enum, wf_and_enum,
                                      wf_of_enum, wf_empty
    | rewrite flags_or_enum by auto using wf_or, wf_and, wf_or_enum,
                                          wf_and_enum, wf_of_enum, wf_empty
    | rewrite flags_and_enum by auto using wf_or, wf_and, wf_or_enum,
                                           wf_and_enum, wf_of_enum, wf_empty ].

(** X1. On objects of the type, signed or unsigned, the four operators lose
    and invent no bit: the raw integer of the result is the bitwise OR (AND)
    of the raw integers of the operands, and it is again a value of the
    underlying type. *)
Theorem Flags_operators_exact (a f : Flags E) (flag : E) :
  valid a -> valid f ->
  (to_raw (a |f f) = Z.lor (to_raw a) (to_raw f)
   /\ to_raw (a &f f) = Z.land (to_raw a) (to_raw f)
   /\ to_raw (a |e flag) = Z.lor (to_raw a) (toInner flag)
   /\ to_raw (a &e flag) = Z.land (to_raw a) (toInner flag))
  /\ (valid (a |f f) /\ valid (a &f f)
      /\ valid (a |e flag) /\ valid (a &e flag)).
Proof.
  intros Ha Hf. unfold to_raw. split.
  - split; [| split; [| split]];
      [ apply flags_or | apply flags_and
      | apply flags_or_enum | apply flags_and_enum ]; assumption.
  - split; [| split; [| split]];
      [ apply wf_or | apply wf_and | apply wf_or_enum | apply wf_and_enum ].
Qed.

(** X2. [operator|] and [operator&] are commutative and associative. *)
Theorem Flags_or_and_comm_assoc (a f g : Flags E) :
  valid a -> valid f -> valid g ->
  (a |f f = f |f a /\ a &f f = f &f a)
  /\ ((a |f f) |f g = a |f (f |f g) /\ (a &f f) &f g = a &f (f &f g)).
Proof.
  intros Ha Hf Hg. repeat split; flags_eq.
  - apply Z.lor_comm.
  - apply Z.land_comm.
  - symmetry. apply Z.lor_assoc.
  - symmetry. apply Z.land_assoc.
Qed.

(** X3. Both operators are idempotent, and each absorbs the other:
    [(a & f) | a] and [(a | f) & a] are [a]. *)
Theorem Flags_idempotent_absorption (a f : Flags E) :
  valid a -> valid f ->
  (a |f a = a /\ a &f a = a)
  /\ ((a &f f) |f a = a /\ (a |f f) &f a = a).
Proof.
  intros Ha Hf. repeat split; flags_eq.
  - apply Z.lor_diag.
  - apply Z.land_diag.
  - rewrite Z.lor_comm, Z.lor_land_distr_r, Z.lor_diag.
    apply Z.bits_inj'; intros n Hn.
    rewrite Z.land_spec, Z.lor_spec.
    destruct (Z.testbit (flags a) n), (Z.testbit (flags f) n); reflexivity.
  - apply Z.bits_inj'; intros n Hn.
    rewrite Z.land_spec, Z.lor_spec.
    destruct (Z.testbit (flags a) n), (Z.testbit (flags f) n); reflexivity.
Qed.

(** X4. Each operator distributes over the other. *)
Theorem Flags_distributive (a f g : Flags E) :
  valid a -> valid f -> valid g ->
  a &f (f |f g) = (a &f f) |f (a &f g)
  /\ a |f (f &f g) = (a |f f) &f (a |f g).
Proof.
  intros Ha Hf Hg. split; flags_eq.
  - apply Z.land_lor_distr_r.
  - apply Z.lor_land_distr_r.
Qed.

(** X5. A union converts to [true] exactly when one of its operands does,
    and an intersection can convert to [true] only when both operands do. *)
Theorem Flags_to_bool_or_and (a f : Flags E) :
  valid a -> valid f ->
  to_bool (a |f f) = to_bool a || to_bool f
  /\ (to_bool (a &f f) = true -> to_bool a = true /\ to_bool f = true).
Proof.
  intros Ha Hf. unfold to_bool.
  rewrite flags_or, flags_and by assumption. split.
  - destruct (Z.eqb_spec (flags a) 0) as [-> | Hna].
    + rewrite Z.lor_0_l. reflexivity.
    + destruct (Z.eqb_spec (Z.lor (flags a) (flags f)) 0) as [H0 | _].
      * apply Z.lor_eq_0_iff in H0. tauto.
      * reflexivity.
  - rewrite !negb_true_iff, !Z.eqb_neq. intros Hand. split; intros H0.
    + apply Hand. rewrite H0. apply Z.land_0_l.
    + apply Hand. rewrite H0. apply Z.land_0_r.
Qed.

(** X6. Setting an enumerator in any object and then testing it gives the
    enumerator back: [(f | flag) & flag] is [Flags<E>(flag)], so the test
    converts to [true] exactly when the enumerator has a bit. *)
Theorem Flags_set_then_test (f : Flags E) (flag : E) :
  valid f ->
  (f |e flag) &e flag = Flags_of flag
  /\ (to_bool ((f |e flag) &e flag) = true <-> toInner flag <> 0).
Proof.
  intros Hf.
  assert (Heq : (f |e flag) &e flag = Flags_of flag).
  { flags_eq. cbn [flags of_enum].
    apply Z.bits_inj'; intros n Hn.
    rewrite Z.land_spec, Z.lor_spec.
    destruct (Z.testbit (flags f) n), (Z.testbit (toInner flag) n);
      reflexivity. }
  split; [exact Heq |].
  rewrite Heq. apply to_bool_true_iff.
Qed.

(** X7. Testing an enumerator that shares no bit with an object, after
    setting another enumerator that shares no bit with it either, converts
    to [false]. *)
Theorem Flags_test_unset (f : Flags E) (set tested : E) :
  valid f ->
  Z.land (to_raw f) (toInner tested) = 0 ->
  Z.land (toInner set) (toInner tested) = 0 ->
  (f |e set) &e tested = empty
  /\ to_bool ((f |e set) &e tested) = false.
Proof.
  intros Hf Hft Hst.
  assert (Heq : (f |e set) &e tested = empty).
  { flags_eq. cbn [flags empty].
    unfold to_raw in Hft. rewrite Z.land_lor_distr_l, Hft, Hst. reflexivity. }
  split; [exact Heq |]. rewrite Heq. reflexivity.
Qed.

End FlagsAlgebra.

(** *** On [Flags<StdIO>] *)

Lemma Flags_operators_exact_witness :
  Flags.wf int (@Flags.of_raw StdIO.StdIO (-2))
  /\ Flags.wf int (@Flags.of_raw StdIO.StdIO 1)
  /\ Flags.to_raw (Flags.or int (@Flags.of_raw StdIO.StdIO (-2)) (Flags.of_raw 1))
     = -1
  /\ Flags.to_raw (Flags.and int (@Flags.of_raw StdIO.StdIO (-2)) (Flags.of_raw 1))
     = 0.
Proof.
  assert (Ha : Flags.wf int (@Flags.of_raw StdIO.StdIO (-2)))
    by (split; discriminate).
  assert (Hf : Flags.wf int (@Flags.of_raw StdIO.StdIO 1))
    by (split; discriminate).
  split; [exact Ha | split; [exact Hf |]].
  pose proof (proj1 (Flags_operators_exact StdIO.StdIO int StdIO.underlying
                       (Flags.of_raw (-2)) (Flags.of_raw 1) StdIO.CREATE_PIPE
                       Ha Hf)) as [Hor [Hand _]].
  split; [exact Hor | exact Hand].
Defined.

Lemma Flags_or_and_comm_assoc_witness :
  Flags.wf StdIO.InnerType (@Flags.of_raw StdIO.StdIO 3)
  /\ Flags.wf StdIO.InnerType (@Flags.of_raw StdIO.StdIO 6)
  /\ Flags.wf StdIO.InnerType (@Flags.of_raw StdIO.StdIO 48)
  /\ Flags.or StdIO.InnerType
       (Flags.or StdIO.InnerType (@Flags.of_raw StdIO.StdIO 3) (Flags.of_raw 6))
       (Flags.of_raw 48)
     = Flags.or StdIO.InnerType (Flags.of_raw 3)
         (Flags.or StdIO.InnerType (Flags.of_raw 6) (Flags.of_raw 48)).
Proof.
  assert (Ha : Flags.wf StdIO.InnerType (@Flags.of_raw StdIO.StdIO 3))
    by (split; discriminate).
  assert (Hf : Flags.wf StdIO.InnerType (@Flags.of_raw StdIO.StdIO 6))
    by (split; discriminate).
  assert (Hg : Flags.wf StdIO.InnerType (@Flags.of_raw StdIO.StdIO 48))
    by (split; discriminate).
  split; [exact Ha | split; [exact Hf | split; [exact Hg |]]].
  exact (proj1 (proj2 (Flags_or_and_comm_assoc StdIO.StdIO StdIO.InnerType
                         (Flags.of_raw 3) (Flags.of_raw 6) (Flags.of_raw 48)
                         Ha Hf Hg))).
Defined.

Lemma Flags_idempotent_absorption_witness :
  Flags.wf StdIO.InnerType (@Flags.of_raw StdIO.StdIO 3)
  /\ Flags.wf StdIO.InnerType (@Flags.of_raw StdIO.StdIO 6)
  /\ Flags.and StdIO.InnerType
       (Flags.or StdIO.InnerType (@Flags.of_raw StdIO.StdIO 3) (Flags.of_raw 6))
       (Flags.of_raw 3)
     = Flags.of_raw 3.
Proof.
  assert (Ha : Flags.wf StdIO.InnerType (@Flags.of_raw StdIO.StdIO 3))
    by (split; discriminate).
  assert (Hf : Flags.wf StdIO.InnerType (@Flags.of_raw StdIO.StdIO 6))
    by (split; discriminate).
  split; [exact Ha | split; [exact Hf |]].
  exact (proj2 (proj2 (Flags_idempotent_absorption StdIO.StdIO StdIO.InnerType
                         (Flags.of_raw 3) (Flags.of_raw 6) Ha Hf))).
Defined.

Lemma Flags_distributive_witness :
  Flags.wf StdIO.InnerType (@Flags.of_raw StdIO.StdIO 3)
  /\ Flags.wf StdIO.InnerType (@Flags.of_raw StdIO.StdIO 6)
  /\ Flags.wf StdIO.InnerType (@Flags.of_raw StdIO.StdIO 48)
  /\ Flags.and StdIO.InnerType (@Flags.of_raw StdIO.StdIO 3)
       (Flags.or StdIO.InnerType (Flags.of_raw 6) (Flags.of_raw 48))
     = Flags.or StdIO.InnerType
         (Flags.and StdIO.InnerType (Flags.of_raw 3) (Flags.of_raw 6))
         (Flags.and StdIO.InnerType (Flags.of_raw 3) (Flags.of_raw 48)).
Proof.
  assert (Ha : Flags.wf StdIO.InnerType (@Flags.of_raw StdIO.StdIO 3))
    by (split; discriminate).
  assert (Hf : Flags.wf StdIO.InnerType (@Flags.of_raw StdIO.StdIO 6))
    by (split; discriminate).
  assert (Hg : Flags.wf StdIO.InnerType (@Flags.of_raw StdIO.StdIO 48))
    by (split; discriminate).
  split; [exact Ha | split; [exact Hf | split; [exact Hg |]]].
  exact (proj1 (Flags_distributive StdIO.StdIO StdIO.InnerType
                  (Flags.of_raw 3) (Flags.of_raw 6) (Flags.of_raw 48)
                  Ha Hf Hg)).
Defined.

Lemma Flags_to_bool_or_and_witness :
  Flags.wf StdIO.InnerType (@Flags.empty StdIO.StdIO)
  /\ Flags.wf StdIO.InnerType (@Flags.of_raw StdIO.StdIO 6)
  /\ Flags.to_bool
       (Flags.or StdIO.InnerType (@Flags.empty StdIO.StdIO) (Flags.of_raw 6))
     = Flags.to_bool (@Flags.empty StdIO.StdIO)
       || Flags.to_bool (@Flags.of_raw StdIO.StdIO 6).
Proof.
  assert (Ha : Flags.wf StdIO.InnerType (@Flags.empty StdIO.StdIO))
    by (split; discriminate).
  assert (Hf : Flags.wf StdIO.InnerType (@Flags.of_raw StdIO.StdIO 6))
    by (split; discriminate).
  split; [exact Ha | split; [exact Hf |]].
  exact (proj1 (Flags_to_bool_or_and StdIO.StdIO StdIO.InnerType
                  Flags.empty (Flags.of_raw 6) Ha Hf)).
Defined.

Lemma Flags_set_then_test_witness :
  Flags.wf StdIO.InnerType StdIO.pipe_and_stream
  /\ StdIO.and_enum (StdIO.or_enum StdIO.pipe_and_stream StdIO.READABLE_PIPE)
       StdIO.READABLE_PIPE
     = StdIO.of_enum StdIO.READABLE_PIPE.
Proof.
  assert (Hf : Flags.wf StdIO.InnerType StdIO.pipe_and_stream)
    by (split; discriminate).
  split; [exact Hf |].
  exact (proj1 (Flags_set_then_test StdIO.StdIO StdIO.InnerType StdIO.underlying
                  StdIO.pipe_and_stream StdIO.READABLE_PIPE Hf)).
Defined.

Lemma Flags_test_unset_witness :
  Flags.wf StdIO.InnerType StdIO.pipe_and_stream
  /\ Z.land (Flags.to_raw StdIO.pipe_and_stream)
            (StdIO.toInner StdIO.WRITABLE_PIPE) = 0
  /\ Z.land (StdIO.toInner StdIO.READABLE_PIPE)
            (StdIO.toInner StdIO.WRITABLE_PIPE) = 0
  /\ Flags.to_bool
       (StdIO.and_enum
          (StdIO.or_enum StdIO.pipe_and_stream StdIO.READABLE_PIPE)
          StdIO.WRITABLE_PIPE) = false.
Proof.
  assert (Hf : Flags.wf StdIO.InnerType StdIO.pipe_and_stream)
    by (split; discriminate).
  split; [exact Hf | split; [reflexivity | split; [reflexivity |]]].
  exact (proj2 (Flags_test_unset StdIO.StdIO StdIO.InnerType StdIO.underlying
                  StdIO.pipe_and_stream StdIO.READABLE_PIPE StdIO.WRITABLE_PIPE
                  Hf eq_refl eq_refl)).
Defined.

(** ** More on [details::address] *)

Lemma ntohs_htons_wraps (big_endian : bool) (p : Z) :
  details.ntohs big_endian (details.htons big_endian p) = p mod 65536.
Proof.
  assert (Hh : details.htons big_endian p
               = details.htons big_endian (p mod 65536)).
  { unfold details.htons. rewrite !convert_uint16, Z.mod_mod by lia.
    reflexivity. }
  rewrite Hh. apply ntohs_htons. apply Z.mod_pos_bound. lia.
Qed.

Section AddressMore.

Import details.

Variable big_endian : bool.
Variable size_t : IntType.
Variable sockaddr_in sockaddr_in6 sockaddr_storage : Type.
Variable sin_port : sockaddr_in -> Z.
Variable uv_ip4_addr : string -> Z -> Z * sockaddr_in.
Variable uv_ip6_addr : string -> Z -> Z * sockaddr_in6.
Variable uv_ip4_name : sockaddr_in -> Z -> Z * list ascii.
Variable uv_ip6_name : sockaddr_in6 -> Z -> Z * list ascii.
Variable sizeof_sockaddr_storage : Z.
Variable as_sockaddr_in : sockaddr_storage -> sockaddr_in.
Variable as_sockaddr_in6 : sockaddr_storage -> sockaddr_in6.

Local Abbreviation address_at :=
  (address big_endian size_t sockaddr_in sockaddr_in6 sin_port
           uv_ip4_addr uv_ip6_addr uv_ip4_name uv_ip6_name).
Local Abbreviation address_handle_at :=
  (address_handle big_endian size_t sockaddr_in sockaddr_in6 sockaddr_storage
                  sin_port uv_ip4_addr uv_ip6_addr uv_ip4_name uv_ip6_name
                  sizeof_sockaddr_storage as_sockaddr_in as_sockaddr_in6).
Local Abbreviation body4 :=
  (address_body big_endian size_t sockaddr_in sockaddr_in6
                uv_ip4_addr uv_ip6_addr uv_ip4_name uv_ip6_name IPv4 sin_port).
Local Abbreviation handle_body4 U :=
  (@address_handle_body sockaddr_in sockaddr_in6 sockaddr_storage
                        uv_ip4_addr uv_ip6_addr uv_ip4_name uv_ip6_name
                        sizeof_sockaddr_storage as_sockaddr_in as_sockaddr_in6
                        IPv4 body4 U).
Local Abbreviation capacity := (convert int sizeof_sockaddr_storage).
Local Abbreviation body4_returns' :=
  (body4_returns big_endian size_t sockaddr_in sockaddr_in6 sin_port
                 uv_ip4_addr uv_ip6_addr uv_ip4_name uv_ip6_name).



(** X10. For [len >= 0], when [uv_ip4_name] returns 0 after storing a text
    and its terminating [NUL] inside the array, [address<IPv4>(aptr, len)]
    returns that text as [ip], whatever follows the [NUL] in the array. *)
Theorem address_ip_stops_at_NUL (aptr : sockaddr_in) (len : Z)
    (text : string) (rest : list ascii) :
  0 <= len ->
  has_NUL text = false ->
  Z.of_nat (String.length text) < len ->
  uv_ip4_name aptr (convert size_t len)
  = (0, list_ascii_of_string text ++ "000"%char :: rest) ->
  exists address4,
    address_at IPv4 = Some address4
    /\ address4 aptr len
       = Some (mkAddr text (ntohs big_endian (sin_port aptr))).
Proof.
  intros Hlen Htext Hfits H.
  exists body4. split; [reflexivity |].
  apply (body4_name_ok big_endian size_t sockaddr_in sockaddr_in6 sin_port
           uv_ip4_addr uv_ip6_addr uv_ip4_name uv_ip6_name
           aptr len _ text Hlen H).
  apply string_of_array_text; [exact Htext | lia].
Qed.


(** X12. For [len >= 0], when the port member of the [sockaddr_in] is
    [htons(p)] for an integer [p] and [address<IPv4>(aptr, len)] returns an
    [Addr] after [uv_ip4_name] returned 0, its port is [p] modulo 65536:
    [p] itself when [p] is a 16-bit number. *)
Theorem address_port_of_htons (aptr : sockaddr_in) (len p : Z) (a : Addr) :
  sin_port aptr = htons big_endian p ->
  fst (uv_ip4_name aptr (convert size_t len)) = 0 ->
  exists address4,
    address_at IPv4 = Some address4
    /\ (address4 aptr len = Some a ->
        port a = p mod 65536 /\ (0 <= p < 65536 -> port a = p)).
Proof.
  intros Hport H0. exists body4. split; [reflexivity |].
  intros Ha.
  assert (Hp : port a = p mod 65536).
  { destruct (body4_returns' _ _ _ Ha) as [_ [[Hne _] | [_ (text & _ & ->)]]].
    - contradiction.
    - cbn [port]. rewrite Hport. apply ntohs_htons_wraps. }
  split; [exact Hp |].
  intros Hr. rewrite Hp. apply Z.mod_small. exact Hr.
Qed.

(** X13. On a host of either byte order: when the port member of the
    [sockaddr_in] is what the host reads from the octets [b0 b1] and
    [address<IPv4>(aptr, len)] returns an [Addr] after [uv_ip4_name]
    returned 0, its port is [b0 * 256 + b1], the number the octets spell in
    network order. *)
Theorem address_port_network_octets (aptr : sockaddr_in) (len b0 b1 : Z)
    (a : Addr) :
  0 <= b0 < 256 -> 0 <= b1 < 256 ->
  sin_port aptr = load16 big_endian b0 b1 ->
  fst (uv_ip4_name aptr (convert size_t len)) = 0 ->
  exists address4,
    address_at IPv4 = Some address4
    /\ (address4 aptr len = Some a -> port a = b0 * 256 + b1).
Proof.
  intros H0 H1 Hport Hok. exists body4. split; [reflexivity |].
  intros Ha.
  destruct (body4_returns' _ _ _ Ha) as [_ [[Hne _] | [_ (text & _ & ->)]]].
  - contradiction.
  - cbn [port]. rewrite Hport. apply ntohs_load16; assumption.
Qed.

End AddressMore.

(** *** On the reference platform *)

Section PlatformMore.

Import details Platform.


Lemma address_ip_stops_at_NUL_witness :
  (0 <= 16
   /\ has_NUL "127.0.0.1" = false
   /\ Z.of_nat (String.length "127.0.0.1") < 16
   /\ uv_ip4_name loopback4 (convert size_t 16)
      = (0, list_ascii_of_string "127.0.0.1" ++ "000"%char :: []))
  /\ exists address4,
       address false IPv4 = Some address4
       /\ address4 loopback4 16 = Some (mkAddr "127.0.0.1" 8080).
Proof.
  assert (Hlen : 0 <= 16) by discriminate.
  assert (Hfits : Z.of_nat (String.length "127.0.0.1") < 16) by reflexivity.
  split; [exact (conj Hlen (conj eq_refl (conj Hfits eq_refl))) |].
  exact (address_ip_stops_at_NUL false size_t sockaddr_in sockaddr_in6
           sin_port (uv_ip4_addr false) (uv_ip6_addr false)
           uv_ip4_name uv_ip6_name loopback4 16 "127.0.0.1" []
           Hlen eq_refl Hfits eq_refl).
Defined.


Lemma address_port_of_htons_witness :
  (sin_port (snd (uv_ip4_addr false "127.0.0.1" 65616)) = htons false 65616
   /\ fst (uv_ip4_name (snd (uv_ip4_addr false "127.0.0.1" 65616))
             (convert size_t 16)) = 0
   /\ address4 false (snd (uv_ip4_addr false "127.0.0.1" 65616)) 16
      = Some (mkAddr "127.0.0.1" 80))
  /\ port (mkAddr "127.0.0.1" 80) = 65616 mod 65536.
Proof.
  split; [exact (conj eq_refl (conj eq_refl eq_refl)) |].
  destruct (address_port_of_htons false size_t sockaddr_in sockaddr_in6
              sin_port (uv_ip4_addr false) (uv_ip6_addr false)
              uv_ip4_name uv_ip6_name
              (snd (uv_ip4_addr false "127.0.0.1" 65616)) 16 65616
              (mkAddr "127.0.0.1" 80) eq_refl eq_refl)
    as [a4 [H4 Hspec]].
  change (Some (address4 false) = Some a4) in H4. injection H4 as <-.
  exact (proj1 (Hspec eq_refl)).
Defined.

Lemma address_port_network_octets_witness :
  (0 <= 31 < 256 /\ 0 <= 144 < 256
   /\ sin_port loopback4 = load16 false 31 144
   /\ fst (uv_ip4_name loopback4 (convert size_t 16)) = 0
   /\ address4 false loopback4 16 = Some (mkAddr "127.0.0.1" 8080))
  /\ port (mkAddr "127.0.0.1" 8080) = 31 * 256 + 144.
Proof.
  assert (H0 : 0 <= 31 < 256) by (split; [discriminate | reflexivity]).
  assert (H1 : 0 <= 144 < 256) by (split; [discriminate | reflexivity]).
  split; [exact (conj H0 (conj H1 (conj eq_refl (conj eq_refl eq_refl)))) |].
  destruct (address_port_network_octets false size_t sockaddr_in sockaddr_in6
              sin_port (uv_ip4_addr false) (uv_ip6_addr false)
              uv_ip4_name uv_ip6_name loopback4 16 31 144
              (mkAddr "127.0.0.1" 8080) H0 H1 eq_refl eq_refl)
    as [a4 [H4 Hspec]].
  change (Some (address4 false) = Some a4) in H4. injection H4 as <-.
  exact (Hspec eq_refl).
Defined.

End PlatformMore.

(** ** Masks built from enumerators *)

(** X14. For enumerators whose values are values of the underlying type,
    [Flags<E>(a)] holds the value of [a], and the raw integer of
    [Flags<E>(a) | b] is the bitwise OR of the two values: the mask handed to
    an interface that expects a flags integer. *)
Theorem Flags_mask_of_enumerators (E : Type) (InnerType : IntType)
    (underlying : E -> Z) (a b : E) :
  in_range InnerType (underlying a) ->
  in_range InnerType (underlying b) ->
  Flags.to_raw (Flags.of_enum InnerType underlying a) = underlying a
  /\ Flags.to_raw
       (Flags.or_enum InnerType underlying
          (Flags.of_enum InnerType underlying a) b)
     = Z.lor (underlying a) (underlying b).
Proof.
  intros Ha Hb. unfold Flags.to_raw.
  assert (Hca : Flags.toInnerType InnerType underlying a = underlying a)
    by (apply convert_id; exact Ha).
  assert (Hcb : Flags.toInnerType InnerType underlying b = underlying b)
    by (apply convert_id; exact Hb).
  split; [exact Hca |].
  rewrite flags_or_enum by apply wf_of_enum.
  cbn [Flags.flags Flags.of_enum]. rewrite Hca, Hcb. reflexivity.
Qed.

Lemma Flags_mask_of_enumerators_witness :
  in_range StdIO.InnerType (StdIO.underlying StdIO.CREATE_PIPE)
  /\ in_range StdIO.InnerType (StdIO.underlying StdIO.READABLE_PIPE)
  /\ Flags.to_raw
       (StdIO.or_enum (StdIO.of_enum StdIO.CREATE_PIPE) StdIO.READABLE_PIPE)
     = 17.
Proof.
  assert (Ha : in_range StdIO.InnerType (StdIO.underlying StdIO.CREATE_PIPE))
    by (split; discriminate).
  assert (Hb : in_range StdIO.InnerType (StdIO.underlying StdIO.READABLE_PIPE))
    by (split; discriminate).
  split; [exact Ha | split; [exact Hb |]].
  exact (proj2 (Flags_mask_of_enumerators StdIO.StdIO StdIO.InnerType
                  StdIO.underlying StdIO.CREATE_PIPE StdIO.READABLE_PIPE
                  Ha Hb)).
Defined.
